(** * Whatsapp-Healthcare-Backend: a shallow embedding of the inbound message
      pipeline and of the admin alert path, with the properties of its
      specification.

    The Python sources are embedded function by function:
    - [app/config.py]                      -> [Settings]
    - [app/services/whatsapp.py]           -> module [WhatsApp]
    - [app/services/message_processor.py]  -> module [MessageProcessor]
    - [app/services/twilio_sms.py]         -> module [TwilioSMS]
    - [app/main.py]                        -> module [Main]
    - [send_alert.py]                      -> module [SendAlert]

    Python values that come from JSON are values of [json]; a Python [str] is
    a [string] whose characters are the code points below 256; an exception
    is a value of [exn]; code that may raise returns a [result]; code that
    also touches the HTTP client returns a computation [M] over an explicit
    world.  [await] is sequencing.  Logging and [print] are left out: they
    format values that are already computed and cannot change a result.
    [except Exception] is taken to catch every exception of [exn]. *)

From Stdlib Require Import String Ascii List ZArith NArith Bool Lia PrimFloat.
Import ListNotations.

#[local] Set Warnings "-register-all".
Local Open Scope string_scope.
Local Open Scope Z_scope.

(* ====================================================================== *)
(** * Python values *)
(* ====================================================================== *)

(** What [json.loads] produces: [None], [bool], [int], [float], [str],
    [list] and [dict] with [str] keys.  A dict is an association list read
    with first-match lookup. *)
Inductive json : Type :=
| JNull
| JBool (b : bool)
| JInt (n : Z)
| JFloat (f : float)
| JStr (s : string)
| JArr (items : list json)
| JObj (fields : list (string * json)).

(** Exceptions, by class; the payload is [str(e)].  [HTTPException] is
    FastAPI's and carries the status code. *)
Inductive exn : Type :=
| AttributeError (msg : string)
| TypeError (msg : string)
| KeyError (msg : string)
| IndexError (msg : string)
| JSONDecodeError (msg : string)
| TransportError (msg : string)
| HTTPException (status_code : Z) (detail : string).

Definition str_of_exn (e : exn) : string :=
  match e with
  | AttributeError m | TypeError m | KeyError m | IndexError m
  | JSONDecodeError m | TransportError m => m
  | HTTPException _ d => d
  end.

(** The outcome of evaluating a Python expression. *)
Inductive result (A : Type) : Type :=
| Ok (a : A)
| Raise (e : exn).
Arguments Ok {A} a.
Arguments Raise {A} e.

Definition rbind {A B} (r : result A) (k : A -> result B) : result B :=
  match r with
  | Ok a => k a
  | Raise e => Raise e
  end.

(** [try: body / except Exception as e: handler e] for pure code. *)
Definition try_except {A} (body : result A) (handler : exn -> result A)
  : result A :=
  match body with
  | Ok a => Ok a
  | Raise e => handler e
  end.

Declare Scope result_scope.
Delimit Scope result_scope with result.
Notation "x <- c ;; k" := (rbind c (fun x => k))
  (at level 61, c at next level, right associativity) : result_scope.

(** ** Truth value, [len], [x[0]], [x[:n]], [d.get(k, default)] *)

Definition is_empty_string (s : string) : bool :=
  match s with EmptyString => true | String _ _ => false end.

(** [bool(v)]: [None], [False], zero, and empty containers are false. *)
Definition truthy (v : json) : bool :=
  match v with
  | JNull => false
  | JBool b => b
  | JInt n => negb (n =? 0)
  | JFloat f => negb (PrimFloat.eqb f PrimFloat.zero)
  | JStr s => negb (is_empty_string s)
  | JArr [] => false
  | JArr (_ :: _) => true
  | JObj [] => false
  | JObj (_ :: _) => true
  end.

Fixpoint lookup (k : string) (fields : list (string * json)) : option json :=
  match fields with
  | [] => None
  | (k', v) :: rest => if String.eqb k k' then Some v else lookup k rest
  end.

(** [type(v).__name__], as it appears in the text of an exception. *)
Definition type_name (v : json) : string :=
  match v with
  | JNull => "NoneType"
  | JBool _ => "bool"
  | JInt _ => "int"
  | JFloat _ => "float"
  | JStr _ => "str"
  | JArr _ => "list"
  | JObj _ => "dict"
  end.

(** [d.get(k, default)]: only a dict has [get]. *)
Definition py_get (d : json) (k : string) (default : json) : result json :=
  match d with
  | JObj fields =>
      match lookup k fields with
      | Some v => Ok v
      | None => Ok default
      end
  | _ => Raise (AttributeError
                  ("'" ++ type_name d ++ "' object has no attribute 'get'"))
  end.

(** [x[0]].  The keys of a dict from JSON are strings, so [d[0]] is a
    [KeyError] for every such dict. *)
Definition py_index0 (x : json) : result json :=
  match x with
  | JArr (v :: _) => Ok v
  | JArr [] => Raise (IndexError "list index out of range")
  | JStr (String c _) => Ok (JStr (String c EmptyString))
  | JStr EmptyString => Raise (IndexError "string index out of range")
  | JObj _ => Raise (KeyError "0")
  | _ => Raise (TypeError ("'" ++ type_name x ++ "' object is not subscriptable"))
  end.

Fixpoint string_firstn (n : nat) (s : string) : string :=
  match n, s with
  | S n', String c s' => String c (string_firstn n' s')
  | _, _ => EmptyString
  end.

(** [x[:n]]: defined on [str] and [list] only.  (The text for a dict is
    that of Python before 3.12; later versions raise a [KeyError].) *)
Definition py_slice_to (n : nat) (x : json) : result json :=
  match x with
  | JStr s => Ok (JStr (string_firstn n s))
  | JArr l => Ok (JArr (firstn n l))
  | JObj _ => Raise (TypeError "unhashable type: 'slice'")
  | _ => Raise (TypeError ("'" ++ type_name x ++ "' object is not subscriptable"))
  end.

(** [len(x)]. *)
Definition py_len (x : json) : result Z :=
  match x with
  | JStr s => Ok (Z.of_nat (String.length s))
  | JArr l => Ok (Z.of_nat (List.length l))
  | JObj fields => Ok (Z.of_nat (List.length fields))
  | _ => Raise (TypeError ("object of type '" ++ type_name x ++ "' has no len()"))
  end.

(* ====================================================================== *)
(** * Python [str] methods used by the sources *)
(* ====================================================================== *)

Definition code (c : ascii) : N := N_of_ascii c.

(** [str.lower()] on one code point below 256: A-Z and the Latin-1 capitals
    (U+00C0..U+00DE without the multiplication sign U+00D7) move up by 32. *)
Definition lower_char (c : ascii) : ascii :=
  let n := code c in
  if ((65 <=? n) && (n <=? 90))%N
     || ((192 <=? n) && (n <=? 222) && negb (n =? 215))%N
  then ascii_of_N (n + 32)
  else c.

Fixpoint lower (s : string) : string :=
  match s with
  | EmptyString => EmptyString
  | String c s' => String (lower_char c) (lower s')
  end.

(** [c.isspace()] below 256: TAB..CR, FS..US, space, NEL, NBSP. *)
Definition is_space (c : ascii) : bool :=
  let n := code c in
  (((9 <=? n) && (n <=? 13)) || ((28 <=? n) && (n <=? 32))
   || (n =? 133) || (n =? 160))%N.

Fixpoint lstrip (s : string) : string :=
  match s with
  | EmptyString => EmptyString
  | String c s' => if is_space c then lstrip s' else s
  end.

Fixpoint rstrip (s : string) : string :=
  match s with
  | EmptyString => EmptyString
  | String c s' =>
      match rstrip s' with
      | EmptyString => if is_space c then EmptyString else String c EmptyString
      | r => String c r
      end
  end.

(** [s.strip()]. *)
Definition strip (s : string) : string := rstrip (lstrip s).

(** [s.startswith(p)]. *)
Fixpoint startswith (s p : string) {struct p} : bool :=
  match p, s with
  | EmptyString, _ => true
  | String _ _, EmptyString => false
  | String a p', String b s' => Ascii.eqb a b && startswith s' p'
  end.

(** [k in s] for strings: [k] occurs in [s] as a contiguous substring. *)
Fixpoint str_in (k s : string) : bool :=
  startswith s k ||
  match s with
  | EmptyString => false
  | String _ s' => str_in k s'
  end.

(** [s.replace(old, new)] for a non-empty [old]: occurrences are taken from
    the left and do not overlap; [skip] counts the characters of a matched
    occurrence that are still to be dropped. *)
Fixpoint replace_from (old new : string) (skip : nat) (s : string) : string :=
  match s with
  | EmptyString => EmptyString
  | String c s' =>
      match skip with
      | S k => replace_from old new k s'
      | O =>
          if startswith s old
          then new ++ replace_from old new (Nat.pred (String.length old)) s'
          else String c (replace_from old new O s')
      end
  end.

Definition replace (s old new : string) : string := replace_from old new O s.

(** Line feed, and the text of a triple-quoted literal given line by line. *)
Definition nl : string := String (ascii_of_N 10) EmptyString.

Fixpoint unlines (ls : list string) : string :=
  match ls with
  | [] => EmptyString
  | [l] => l
  | l :: rest => l ++ nl ++ unlines rest
  end.

(* ====================================================================== *)
(** * Computations over a world *)
(* ====================================================================== *)

(** [M W A]: a computation that reads and updates a world [W] and either
    returns an [A] or raises.  What was done to the world before an
    exception stays done. *)
Definition M (W A : Type) : Type := W -> result A * W.

Definition ret {W A} (a : A) : M W A := fun w => (Ok a, w).

Definition raise {W A} (e : exn) : M W A := fun w => (Raise e, w).

Definition bind {W A B} (c : M W A) (k : A -> M W B) : M W B :=
  fun w =>
    match c w with
    | (Ok a, w') => k a w'
    | (Raise e, w') => (Raise e, w')
    end.

(** A pure expression evaluated inside a computation. *)
Definition lift {W A} (r : result A) : M W A := fun w => (r, w).

(** [try: body / except Exception as e: handler e]. *)
Definition try_exceptM {W A} (body : M W A) (handler : exn -> M W A) : M W A :=
  fun w =>
    match body w with
    | (Ok a, w') => (Ok a, w')
    | (Raise e, w') => handler e w'
    end.

Declare Scope M_scope.
Delimit Scope M_scope with M.
Notation "x <- c ;; k" := (bind c (fun x => k))
  (at level 61, c at next level, right associativity) : M_scope.
Notation "c ;;; k" := (bind c (fun _ => k))
  (at level 61, right associativity) : M_scope.

(* ====================================================================== *)
(** * app/config.py *)
(* ====================================================================== *)

(** The fields of [Settings] that the modelled functions read. *)
Record Settings : Type := {
  verify_token : string;
  twilio_verify_token : string;
  admin_api_key : string;
  emergency_number : string
}.

(* ====================================================================== *)
(** * The HTTP side: gateway responses and FastAPI's treatment of handlers *)
(* ====================================================================== *)

(** An [httpx.Response]: the status code and what [response.json()] gives. *)
Record Response : Type := {
  status_code : Z;
  response_json : result json
}.

(** What awaiting [client.post(...)] gives: a response, or a transport
    exception. *)
Definition post_outcome : Type := result Response.

(** The gateway: its reaction to the [n]-th POST of the run, given the
    JSON payload. *)
Definition Gateway : Type := nat -> json -> post_outcome.

(** Arguments of one call of [admin_alert_service.send_broadcast]. *)
Record BroadcastCall : Type := {
  bc_message : json;
  bc_alert_type : json;
  bc_priority : json
}.

(** The world of the web application. *)
Record world : Type := {
  client : bool;                     (* whatsapp service: client is not None *)
  posts : list json;                 (* payloads POSTed to the gateway *)
  broadcasts : list BroadcastCall    (* calls made to the alert service *)
}.

Definition initial_world : world :=
  {| client := false; posts := []; broadcasts := [] |}.

(** What a FastAPI path operation hands back: a dict (sent as JSON) or a
    [Response(content=..., media_type=...)]. *)
Inductive handler_value : Type :=
| ReturnDict (body : json)
| ReturnResponse (content : option string) (media_type : string).

Inductive http_body : Type :=
| BodyJSON (j : json)
| BodyText (s : string).

Record http_response : Type := {
  http_status : Z;
  http_body_of : http_body
}.

(** The handler that main.py registers for status 500
    ([internal_error_handler]): it answers any exception that leaves a
    route, other than an [HTTPException]. *)
Definition internal_error_handler : http_response :=
  {| http_status := 500;
     http_body_of := BodyJSON (JObj [("error", JStr "Internal server error")]) |}.

(** Whether [json.dumps(v, allow_nan=False)] succeeds: it raises a
    [ValueError] on a float that is NaN or infinite, anywhere in [v]. *)
Fixpoint renderable (v : json) : bool :=
  match v with
  | JFloat f => PrimFloat.is_finite f
  | JArr items => forallb renderable items
  | JObj fields => forallb (fun kv => renderable (snd kv)) fields
  | _ => true
  end.

(** FastAPI: a returned dict is rendered with [allow_nan=False] after the
    handler has returned, and is a 200 when that succeeds; when it fails
    the exception leaves the route.  An [HTTPException] is answered with
    its status code and [{"detail": ...}]; any other exception that leaves
    the route goes to [internal_error_handler].  [Response(content=None)]
    has an empty body. *)
Definition respond (r : result handler_value) : http_response :=
  match r with
  | Ok (ReturnDict j) =>
      if renderable j
      then {| http_status := 200; http_body_of := BodyJSON j |}
      else internal_error_handler
  | Ok (ReturnResponse c _) =>
      {| http_status := 200;
         http_body_of := BodyText (match c with Some s => s | None => "" end) |}
  | Raise (HTTPException st d) =>
      {| http_status := st;
         http_body_of := BodyJSON (JObj [("detail", JStr d)]) |}
  | Raise _ => internal_error_handler
  end.

(* ====================================================================== *)
(** * secrets.compare_digest *)
(* ====================================================================== *)

Definition is_ascii_char (c : ascii) : bool := (code c <? 128)%N.

Fixpoint is_ascii_string (s : string) : bool :=
  match s with
  | EmptyString => true
  | String c s' => is_ascii_char c && is_ascii_string s'
  end.

(** The loop of the library routine: it ors the xor of every pair of bytes
    into [acc] and has no exit before the end of [rhs].  The second
    component counts the iterations. *)
Fixpoint tscmp_loop (lhs rhs : string) (acc : N) (steps : nat) : N * nat :=
  match lhs, rhs with
  | String l lhs', String r rhs' =>
      tscmp_loop lhs' rhs' (N.lor acc (N.lxor (code l) (code r))) (S steps)
  | _, _ => (acc, steps)
  end.

(** The routine runs over the length of [b]; when the lengths differ it
    compares [b] with itself and starts from a non-zero accumulator. *)
Definition tscmp (a b : string) : bool * nat :=
  let '(lhs, acc) :=
    if Nat.eqb (String.length a) (String.length b) then (a, 0%N) else (b, 1%N) in
  let '(acc', steps) := tscmp_loop lhs b acc O in
  (N.eqb acc' 0, steps).

(** [secrets.compare_digest(a, b)] on two [str]: a [TypeError] unless both
    are ASCII, else the comparison above. *)
Definition compare_digest (a b : string) : result bool :=
  if is_ascii_string a && is_ascii_string b
  then Ok (fst (tscmp a b))
  else Raise (TypeError "comparing strings with non-ASCII characters is not supported").

(** [secrets.compare_digest(a, b)] where [a] is any value and [b] a [str]:
    the two must be of the same type. *)
Definition py_compare_digest (a : json) (b : string) : result bool :=
  match a with
  | JStr s => compare_digest s b
  | _ => Raise (TypeError
                  ("unsupported operand types(s) or combination of types: '"
                   ++ type_name a ++ "' and 'str'"))
  end.

(* ====================================================================== *)
(** * app/services/whatsapp.py *)
(* ====================================================================== *)

Module WhatsApp.

(** [UnifiedWhatsAppService.ensure_client]. *)
Definition ensure_client : M world unit :=
  fun w =>
    (Ok tt,
     if client w then w
     else {| client := true; posts := posts w; broadcasts := broadcasts w |}).

(** [self.client.post(url, headers=..., json=payload)]: the payload is
    recorded, and the gateway answers or the transport fails. *)
Definition client_post (gateway : Gateway) (payload : json) : M world Response :=
  fun w =>
    (gateway (List.length (posts w)) payload,
     {| client := client w;
        posts := posts w ++ [payload];
        broadcasts := broadcasts w |}).

(** Lines 42-44 of [send_text_message], on a [str]. *)
Definition to_clean (to : string) : string :=
  let to_clean := replace (replace (replace to "+" "") " " "") "-" "" in
  if negb (startswith to_clean "+") then "+" ++ to_clean else to_clean.

(** The same lines on any value: only a [str] has [replace]. *)
Definition format_recipient (to : json) : result string :=
  match to with
  | JStr s => Ok (to_clean s)
  | _ => Raise (AttributeError
                  ("'" ++ type_name to ++ "' object has no attribute 'replace'"))
  end.

Definition payload_of (to_clean text : string) : json :=
  JObj [("messaging_product", JStr "whatsapp");
        ("to", JStr to_clean);
        ("type", JStr "text");
        ("text", JObj [("body", JStr text)])].

(** [UnifiedWhatsAppService.send_text_message]. *)
Definition send_text_message (gateway : Gateway) (to : json) (text : string)
  : M world json :=
  (ensure_client ;;;
   to_clean <- lift (format_recipient to) ;;
   let payload := payload_of to_clean text in
   try_exceptM
     (response <- client_post gateway payload ;;
      if (200 <=? status_code response) && (status_code response <? 300)
      then lift (response_json response)
      else
        error_data <- lift (response_json response) ;;
        ret (JObj [("success", JBool false); ("error", error_data)]))
     (fun e => ret (JObj [("success", JBool false);
                          ("error", JStr (str_of_exn e))])))%M.

(** [UnifiedWhatsAppService.parse_webhook_message]; [None] is [JNull]. *)
Definition parse_webhook_message (data : json) : result json :=
  try_except
    (entries <- py_get data "entry" (JArr []) ;;
     if negb (truthy entries) then Ok JNull else
     entry <- py_index0 entries ;;
     changes <- py_get entry "changes" (JArr []) ;;
     if negb (truthy changes) then Ok JNull else
     change <- py_index0 changes ;;
     value <- py_get change "value" (JObj []) ;;
     messages <- py_get value "messages" (JArr []) ;;
     contacts <- py_get value "contacts" (JArr []) ;;
     if negb (truthy messages) then Ok JNull else
     message <- py_index0 messages ;;
     contact <- (if truthy contacts then py_index0 contacts else Ok (JObj [])) ;;
     message_id <- py_get message "id" JNull ;;
     from <- py_get message "from" JNull ;;
     timestamp <- py_get message "timestamp" JNull ;;
     type <- py_get message "type" JNull ;;
     text <- py_get message "text" (JObj []) ;;
     body <- py_get text "body" (JStr "") ;;
     profile <- py_get contact "profile" (JObj []) ;;
     name <- py_get profile "name" (JStr "Unknown") ;;
     Ok (JObj [("message_id", message_id);
               ("from", from);
               ("timestamp", timestamp);
               ("type", type);
               ("text", body);
               ("contact_name", name)]))%result
    (fun e => Ok JNull).

(** [UnifiedWhatsAppService.close]. *)
Definition close : M world unit :=
  fun w =>
    (Ok tt,
     if client w
     then {| client := false; posts := posts w; broadcasts := broadcasts w |}
     else w).

End WhatsApp.

(* ====================================================================== *)
(** * app/services/message_processor.py *)
(* ====================================================================== *)

Module MessageProcessor.

(** The canned replies.  The literals hold the UTF-8 bytes of the source
    text; no function looks inside them. *)
Definition greeting_reply : string :=
  unlines [
    "👋 Hello! Welcome to Healthcare Assistant.";
    "";
    "I can help you with:";
    "• Symptom checking";
    "• Health information";
    "• Emergency guidance";
    "• Find hospitals";
    "• Medicine information";
    "";
    "How can I assist you today?"
  ].

Definition error_reply : string :=
  "Sorry, I encountered an error. Please try again.".

Definition emergency_reply (number : string) : string :=
  unlines [
    "🚨 EMERGENCY ASSISTANCE";
    "";
    "If this is a medical emergency:";
    "📞 Call " ++ number ++ " immediately";
    "";
    "For urgent care:";
    "• Stay calm";
    "• Note symptoms";
    "• Contact nearest hospital";
    "";
    "Reply with your symptoms for immediate guidance."
  ].

Definition symptom_reply : string :=
  unlines [
    "🏥 SYMPTOM CHECKER";
    "";
    "Please describe your symptoms in detail:";
    "• When did they start?";
    "• How severe are they? (1-10)";
    "• Any other symptoms?";
    "";
    "I'll provide guidance based on your symptoms.";
    "";
    "⚠️ This is not a diagnosis. Seek medical care if symptoms worsen."
  ].

Definition medicine_reply : string :=
  unlines [
    "💊 MEDICINE INFORMATION";
    "";
    "Please provide:";
    "• Medicine name";
    "• Your question about it";
    "";
    "I'll provide information on:";
    "• Usage instructions";
    "• Common side effects";
    "• Precautions";
    "";
    "⚠️ Always consult your doctor before taking any medication."
  ].

Definition facility_reply : string :=
  unlines [
    "🏥 FIND HEALTHCARE FACILITIES";
    "";
    "To find nearby hospitals/clinics:";
    "• Share your location";
    "• Or tell me your area/city";
    "";
    "I'll help you find:";
    "• Nearest hospitals";
    "• Specialist clinics";
    "• Emergency centers"
  ].

Definition default_reply : string :=
  unlines [
    "I'm here to help! You can ask me about:";
    "";
    "🏥 Health symptoms";
    "💊 Medicine information";
    "🚨 Emergency guidance";
    "🏥 Find hospitals";
    "💡 Health tips";
    "";
    "What would you like to know?"
  ].

(** [message.lower()]: only a [str] has [lower]. *)
Definition py_lower (message : json) : result string :=
  match message with
  | JStr s => Ok (lower s)
  | _ => Raise (AttributeError
                  ("'" ++ type_name message ++ "' object has no attribute 'lower'"))
  end.

(** [any(k in message_lower for k in keywords)]. *)
Definition any_in (keywords : list string) (message_lower : string) : bool :=
  existsb (fun k => str_in k message_lower) keywords.

(** [MessageProcessor.generate_response]. *)
Definition generate_response (settings : Settings) (message from_number : json)
  : result string :=
  try_except
    (lowered <- py_lower message ;;
     let message_lower := strip lowered in
     if any_in ["hi"; "hello"; "hey"; "namaste"] message_lower then
       Ok greeting_reply
     else if any_in ["emergency"; "urgent"; "critical"; "help"] message_lower then
       Ok (emergency_reply (emergency_number settings))
     else if any_in ["symptom"; "pain"; "fever"; "cough"; "headache"]
                    message_lower then
       Ok symptom_reply
     else if any_in ["medicine"; "medication"; "drug"; "tablet"] message_lower then
       Ok medicine_reply
     else if any_in ["hospital"; "clinic"; "doctor"; "nearby"] message_lower then
       Ok facility_reply
     else
       Ok default_reply)%result
    (fun e => Ok error_reply).

(** [MessageProcessor.process_webhook]. *)
Definition process_webhook (settings : Settings) (gateway : Gateway)
  (data : json) : M world json :=
  try_exceptM
    (message_data <- lift (WhatsApp.parse_webhook_message data) ;;
     if negb (truthy message_data) then
       ret (JObj [("status", JStr "no_message")])
     else
       from_number <- lift (py_get message_data "from" JNull) ;;
       message_text <- lift (py_get message_data "text" (JStr "")) ;;
       lift (py_slice_to 50 message_text) ;;;
       response_text <- lift (generate_response settings message_text from_number) ;;
       if negb (is_empty_string response_text) then
         result <- WhatsApp.send_text_message gateway from_number response_text ;;
         ret (JObj [("status", JStr "processed"); ("sent", result)])
       else
         ret (JObj [("status", JStr "processed"); ("sent", JBool false)]))%M
    (fun e => ret (JObj [("status", JStr "error");
                         ("error", JStr (str_of_exn e))])).

End MessageProcessor.

(* ====================================================================== *)
(** * app/services/twilio_sms.py *)
(* ====================================================================== *)

Module TwilioSMS.

(** [TwilioSMSService.verify_webhook]. *)
Definition verify_webhook (settings : Settings) (data : json) : result bool :=
  try_except
    (verify_token <- py_get data "verify_token" JNull ;;
     let expected_token := twilio_verify_token settings in
     if negb (truthy verify_token) || is_empty_string expected_token then
       Ok false
     else
       equal <- py_compare_digest verify_token expected_token ;;
       if equal then Ok true else Ok false)%result
    (fun e => Ok false).

End TwilioSMS.

(* ====================================================================== *)
(** * app/main.py *)
(* ====================================================================== *)

Module Main.

(** [not s] for an optional header or query value. *)
Definition falsy_str (s : option string) : bool :=
  match s with
  | None => true
  | Some v => is_empty_string v
  end.

(** [verify_admin_api_key]. *)
Definition verify_admin_api_key (settings : Settings) (api_key : option string)
  : result bool :=
  match api_key with
  | None => Ok false
  | Some key =>
      if is_empty_string key || is_empty_string (admin_api_key settings)
      then Ok false
      else compare_digest key (admin_api_key settings)
  end.

(** [admin_auth_required], the dependency of the admin routes. *)
Definition admin_auth_required (settings : Settings) (x_api_key : option string)
  : result bool :=
  (ok <- verify_admin_api_key settings x_api_key ;;
   if negb ok
   then Raise (HTTPException 401 "Invalid or missing API key")
   else Ok true)%result.

(** [a == b] where [a] may be [None] and [b] is a [str]. *)
Definition opt_str_eqb (a : option string) (b : string) : bool :=
  match a with
  | Some s => String.eqb s b
  | None => false
  end.

(** [verify_webhook], the GET handler of [/webhook]; its arguments are the
    query parameters [hub.mode], [hub.verify_token] and [hub.challenge]. *)
Definition verify_webhook (settings : Settings)
  (hub_mode hub_verify_token hub_challenge : option string)
  : result handler_value :=
  if opt_str_eqb hub_mode "subscribe"
     && opt_str_eqb hub_verify_token (verify_token settings)
  then Ok (ReturnResponse hub_challenge "text/plain")
  else Raise (HTTPException 403 "Verification failed").

(** [receive_message], the POST handler of [/webhook].  [body] is what
    [await request.json()] gives; [message_processor] tells whether the
    global of that name has been set. *)
Definition receive_message (settings : Settings) (gateway : Gateway)
  (message_processor : bool) (body : result json) : M world handler_value :=
  try_exceptM
    (data <- lift body ;;
     entries <- lift (py_get data "entry" (JArr [])) ;;
     lift (py_len entries) ;;;
     if message_processor then
       result <- MessageProcessor.process_webhook settings gateway data ;;
       ret (ReturnDict (JObj [("status", JStr "success"); ("result", result)]))
     else
       ret (ReturnDict (JObj [("status", JStr "error");
                              ("message", JStr "Service not ready")])))%M
    (fun e => ret (ReturnDict (JObj [("status", JStr "error");
                                     ("message", JStr (str_of_exn e))]))).

(** The alert service is not part of the modelled sources: a call of
    [admin_alert_service.send_broadcast] is represented by its outcome as a
    function of the arguments. *)
Definition AlertService : Type := BroadcastCall -> result json.

Definition call_send_broadcast (service : AlertService) (call : BroadcastCall)
  : M world json :=
  fun w =>
    (service call,
     {| client := client w;
        posts := posts w;
        broadcasts := broadcasts w ++ [call] |}).

(** [send_broadcast_alert], the body of the POST handler of
    [/admin/broadcast]. *)
Definition send_broadcast_alert (admin_alert_service : option AlertService)
  (body : result json) : M world handler_value :=
  try_exceptM
    (data <- lift body ;;
     message <- lift (py_get data "message" JNull) ;;
     alert_type <- lift (py_get data "alert_type" (JStr "info")) ;;
     priority <- lift (py_get data "priority" (JStr "normal")) ;;
     if negb (truthy message) then
       raise (HTTPException 400 "Message is required")
     else
       match admin_alert_service with
       | Some service =>
           result <- call_send_broadcast service
                       {| bc_message := message;
                          bc_alert_type := alert_type;
                          bc_priority := priority |} ;;
           ret (ReturnDict
                  (JObj [("status", JStr "success");
                         ("message", JStr "Broadcast alert sent successfully");
                         ("result", result)]))
       | None => raise (HTTPException 503 "Alert service not available")
       end)%M
    (fun e =>
       match e with
       | HTTPException _ _ => raise e
       | _ => raise (HTTPException 500 (str_of_exn e))
       end).

(** The route [POST /admin/broadcast]: the dependency runs first, then the
    handler. *)
Definition admin_broadcast (settings : Settings)
  (admin_alert_service : option AlertService)
  (x_api_key : option string) (body : result json) : M world handler_value :=
  (lift (admin_auth_required settings x_api_key) ;;;
   send_broadcast_alert admin_alert_service body)%M.

End Main.

(* ====================================================================== *)
(** * send_alert.py *)
(* ====================================================================== *)

Module SendAlert.

(** What the script does to the outside, in order. *)
Inductive event : Type :=
| Post (url : string) (headers json_data : json) (timeout : Z)
| Get (url : string) (headers : json) (timeout : Z)
| Sleep (seconds : Z).

Definition trace : Type := list event.

Definition is_request (e : event) : bool :=
  match e with
  | Post _ _ _ _ | Get _ _ _ => true
  | Sleep _ => false
  end.

(** The server called by the script: its reaction to the [n]-th request. *)
Definition Server : Type := nat -> result Response.

Definition requests_made (t : trace) : nat := List.length (filter is_request t).

Definition send (server : Server) (e : event) : M trace Response :=
  fun t => (server (requests_made t), (t ++ [e])%list).

Definition sleep (seconds : Z) : M trace unit :=
  fun t => (Ok tt, (t ++ [Sleep seconds])%list).

(** [range(n)]. *)
Definition range (n : Z) : list Z := map Z.of_nat (seq 0 (Z.to_nat n)).

(** How one pass through the body of the [for] loop ends. *)
Inductive pass : Type :=
| Returned (response : Response)
| Next.

Section Retry.

Variable server : Server.
Variables (url method : string) (max_retries timeout : Z).
Variables (headers json_data : json).

(** The body of the loop of [send_alert_with_retry] for one [attempt]. *)
Definition attempt_once (attempt : Z) : M trace pass :=
  try_exceptM
    (response <-
       (if String.eqb method "POST"
        then send server (Post url headers json_data timeout)
        else send server (Get url headers timeout)) ;;
     ret (Returned response))%M
    (fun e =>
       if attempt =? max_retries - 1
       then raise e
       else (sleep (2 ^ attempt) ;;; ret Next)%M).

Fixpoint retry_loop (attempts : list Z) : M trace (option Response) :=
  match attempts with
  | [] => ret None
  | attempt :: rest =>
      (p <- attempt_once attempt ;;
       match p with
       | Returned response => ret (Some response)
       | Next => retry_loop rest
       end)%M
  end.

(** [send_alert_with_retry]; a run of the loop that ends without [return]
    gives [None]. *)
Definition send_alert_with_retry : M trace (option Response) :=
  retry_loop (range max_retries).

End Retry.

(** The defaults of the parameters [max_retries] and [timeout]. *)
Definition default_max_retries : Z := 3.
Definition default_timeout : Z := 120.

End SendAlert.

(* ====================================================================== *)
(** * The specification's wording, as definitions to compare with *)
(* ====================================================================== *)

Module Spec.

(** "substring matching (not whole-word)": [k] occurs somewhere in [s]. *)
Definition occurs_in (k s : string) : Prop :=
  exists before after : string, s = before ++ k ++ after.

(** The keyword sets of the five categories. *)
Definition greeting_keywords : list string := ["hi"; "hello"; "hey"; "namaste"].
Definition emergency_keywords : list string :=
  ["emergency"; "urgent"; "critical"; "help"].
Definition symptom_keywords : list string :=
  ["symptom"; "pain"; "fever"; "cough"; "headache"].
Definition medicine_keywords : list string :=
  ["medicine"; "medication"; "drug"; "tablet"].
Definition facility_keywords : list string :=
  ["hospital"; "clinic"; "doctor"; "nearby"].

(** "an ordered list of keyword-set categories", each with its reply. *)
Definition categories (settings : Settings) : list (list string * string) :=
  [ (greeting_keywords, MessageProcessor.greeting_reply);
    (emergency_keywords,
     MessageProcessor.emergency_reply (emergency_number settings));
    (symptom_keywords, MessageProcessor.symptom_reply);
    (medicine_keywords, MessageProcessor.medicine_reply);
    (facility_keywords, MessageProcessor.facility_reply) ].

(** "first match wins", with the "generic menu fallback". *)
Fixpoint first_match (cats : list (list string * string)) (text : string)
  : string :=
  match cats with
  | [] => MessageProcessor.default_reply
  | (keywords, reply) :: rest =>
      if existsb (fun k => str_in k text) keywords
      then reply
      else first_match rest text
  end.

(** "Normalizes by lower-casing and trimming, then tests ...". *)
Definition route (settings : Settings) (text : string) : string :=
  first_match (categories settings) (strip (lower text)).

(** A category matches a text when one of its keywords occurs in it. *)
Definition matches (keywords : list string) (text : string) : Prop :=
  exists k, In k keywords /\ occurs_in k text.

(** "descend the fixed nesting path entries[0].changes[0].value": the
    value found there, if the path exists. *)
Definition value_at_path (data : json) : option json :=
  match data with
  | JObj top =>
      match lookup "entry" top with
      | Some (JArr (JObj entry :: _)) =>
          match lookup "changes" entry with
          | Some (JArr (JObj change :: _)) => lookup "value" change
          | _ => None
          end
      | _ => None
      end
  | _ => None
  end.

(** The [messages] array carried at that path; empty when there is none. *)
Definition messages_of (data : json) : list json :=
  match value_at_path data with
  | Some (JObj value) =>
      match lookup "messages" value with
      | Some (JArr messages) => messages
      | _ => []
      end
  | _ => []
  end.

(** The request of one attempt: a POST when [method] is "POST", else a
    GET, with the client-side timeout. *)
Definition request_of (url method : string) (timeout : Z)
  (headers json_data : json) : SendAlert.event :=
  if String.eqb method "POST"
  then SendAlert.Post url headers json_data timeout
  else SendAlert.Get url headers timeout.

(** "exponential backoff 2^attempt seconds between attempts": the trace of
    a call whose attempts 0..k-1 fail and whose attempt [k] is the last
    one made. *)
Fixpoint backoff_from (request : SendAlert.event) (attempt : Z) (k : nat)
  : SendAlert.trace :=
  match k with
  | O => [request]
  | S k' =>
      request :: SendAlert.Sleep (2 ^ attempt)
        :: backoff_from request (attempt + 1) k'
  end.

(** "strips spaces and hyphens": the string without the character [c]. *)
Fixpoint remove_char (c : ascii) (s : string) : string :=
  match s with
  | EmptyString => EmptyString
  | String d s' =>
      if Ascii.eqb c d then remove_char c s' else String d (remove_char c s')
  end.

(** "strips spaces and hyphens, ensures a single leading +": the string
    without plus signs, spaces and hyphens. *)
Definition strip_separators (s : string) : string :=
  remove_char "-" (remove_char " " (remove_char "+" s)).

(** "OutboundResult{success:false, error:<details>}". *)
Definition failure_value (details : json) : json :=
  JObj [("success", JBool false); ("error", details)].

(** The characters the normalized recipient must not contain after its
    leading plus sign. *)
Definition separator (c : ascii) : bool :=
  Ascii.eqb c "+" || Ascii.eqb c " " || Ascii.eqb c "-".

Fixpoint free_of_separators (s : string) : Prop :=
  match s with
  | EmptyString => True
  | String c s' => separator c = false /\ free_of_separators s'
  end.

End Spec.

(* ====================================================================== *)
(** * Concrete settings, payloads and gateways used in examples *)
(* ====================================================================== *)

Module Examples.

Definition settings : Settings :=
  {| verify_token := "my-verify-token";
     twilio_verify_token := "tw-secret";
     admin_api_key := "0123456789abcdef0123456789abcdef";
     emergency_number := "112" |}.

(** The end-to-end event of the specification. *)
Definition hello_event : json :=
  JObj [("entry", JArr [JObj [("changes", JArr [JObj [("value",
    JObj [("messages", JArr [JObj [("id", JStr "m1");
                                   ("from", JStr "5551234");
                                   ("type", JStr "text");
                                   ("text", JObj [("body", JStr "Hello there")])]])])]])]])].

(** The same event without the sender. *)
Definition anonymous_event : json :=
  JObj [("entry", JArr [JObj [("changes", JArr [JObj [("value",
    JObj [("messages", JArr [JObj [("id", JStr "m1");
                                   ("type", JStr "text");
                                   ("text", JObj [("body", JStr "Hello there")])]])])]])]])].

(** A delivery with a second entry, for another message, beside the entry
    of [hello_event], and with a further top-level key. *)
Definition batched_event : json :=
  JObj [("object", JStr "whatsapp_business_account");
        ("entry",
         JArr [JObj [("changes", JArr [JObj [("value",
                 JObj [("messages", JArr [JObj [("id", JStr "m1");
                                                ("from", JStr "5551234");
                                                ("type", JStr "text");
                                                ("text", JObj [("body", JStr "Hello there")])]])])]])];
               JObj [("changes", JArr [JObj [("value",
                 JObj [("messages", JArr [JObj [("id", JStr "m9");
                                                ("from", JStr "5559999");
                                                ("type", JStr "text");
                                                ("text", JObj [("body", JStr "help")])]])])]])]])].

(** A value with two messages and two contacts, with its metadata. *)
Definition two_messages_value : list (string * json) :=
  [("messaging_product", JStr "whatsapp");
   ("contacts", JArr [JObj [("profile", JObj [("name", JStr "Asha")])];
                      JObj [("profile", JObj [("name", JStr "Ravi")])]]);
   ("messages", JArr [JObj [("id", JStr "m1"); ("from", JStr "5551234");
                            ("text", JObj [("body", JStr "Hello there")])];
                      JObj [("id", JStr "m2"); ("from", JStr "5559999");
                            ("text", JObj [("body", JStr "help")])]])].

(** A delivery receipt: statuses, no messages. *)
Definition status_event : json :=
  JObj [("entry", JArr [JObj [("changes", JArr [JObj [("value",
    JObj [("statuses", JArr [JObj [("id", JStr "m0");
                                   ("status", JStr "delivered")]])])]])]])].

Definition accepted_body : json :=
  JObj [("messaging_product", JStr "whatsapp");
        ("messages", JArr [JObj [("id", JStr "wamid.1")]])].

(** A gateway that accepts every message. *)
Definition gateway_ok : Gateway :=
  fun _ _ => Ok {| status_code := 200; response_json := Ok accepted_body |}.


(** A gateway that accepts the message and answers 200 with the body
    [{"balance": 1e999}]; [json.loads] reads the number as infinity. *)
Definition gateway_infinity : Gateway :=
  fun _ _ =>
    Ok {| status_code := 200;
          response_json := Ok (JObj [("balance", JFloat PrimFloat.infinity)]) |}.

(** The same with the body [{"balance": NaN}], which [json.loads] accepts. *)
Definition gateway_nan : Gateway :=
  fun _ _ =>
    Ok {| status_code := 200;
          response_json := Ok (JObj [("balance", JFloat PrimFloat.nan)]) |}.


(** U+00E9, a one-character [str] that is not ASCII. *)
Definition e_acute : string := String (ascii_of_N 233) EmptyString.

(** Settings whose admin key starts with that character. *)
Definition latin1_settings : Settings :=
  {| verify_token := "my-verify-token";
     twilio_verify_token := "tw-secret";
     admin_api_key := e_acute ++ "0123456789abcdef0123456789abcdef";
     emergency_number := "112" |}.

(** A well-formed broadcast request body, and one without message. *)
Definition broadcast_body : json :=
  JObj [("message", JStr "Boil water before drinking");
        ("alert_type", JStr "emergency");
        ("priority", JStr "high")].

Definition empty_message_body : json :=
  JObj [("message", JStr ""); ("alert_type", JStr "info")].

(** An alert service that reports one delivery. *)
Definition alert_service : Main.AlertService :=
  fun _ => Ok (JObj [("sent", JInt 1)]).

(** A server that fails twice, then answers. *)
Definition flaky_server : SendAlert.Server :=
  fun n =>
    match n with
    | 0%nat => Raise (TransportError "timeout")
    | 1%nat => Raise (TransportError "timeout")
    | _ => Ok {| status_code := 200; response_json := Ok JNull |}
    end.

End Examples.

(* ====================================================================== *)
(** * Further functions of the sources *)
(* ====================================================================== *)

(** ** app/config.py: the production check of [Settings] *)

Module Config.

(** The fields that [_validate_security] reads besides those of
    [Settings] above. *)
Record SecurityFields : Type := {
  debug : bool;
  secret_key : string;
  whatsapp_token : string
}.

(** How [_validate_security] ends: it returns, or raises a [ValueError]
    with a message. *)
Inductive validation : Type :=
| Passed
| ValueError (msg : string).

(** [not s or len(s) < 32]. *)
Definition too_short (s : string) : bool :=
  is_empty_string s || (Z.of_nat (String.length s) <? 32).

(** [Settings._validate_security]. *)
Definition _validate_security (settings : Settings) (more : SecurityFields)
  : validation :=
  if negb (debug more) then
    if too_short (secret_key more) then
      ValueError "Security Error: SECRET_KEY must be set to a secure random value (≥32 chars) in production!"
    else if too_short (admin_api_key settings) then
      ValueError "Security Error: ADMIN_API_KEY must be set to a secure random value (≥32 chars) in production!"
    else if is_empty_string (whatsapp_token more) then
      ValueError "Security Error: WHATSAPP_TOKEN must be set in production!"
    else if is_empty_string (verify_token settings) then
      ValueError "Security Error: VERIFY_TOKEN must be set in production!"
    else Passed
  else Passed.

End Config.

(** ** app/services/whatsapp.py: the masked recipient of the log line *)

Module Masking.

Fixpoint string_skipn (n : nat) (s : string) : string :=
  match n, s with
  | O, _ => s
  | S _, EmptyString => EmptyString
  | S n', String _ s' => string_skipn n' s'
  end.

(** [s[-n:]] for a positive [n]: the last [n] characters, or all of [s]
    when it is shorter. *)
Definition str_last (n : nat) (s : string) : string :=
  string_skipn (String.length s - n) s.

(** Line 47 of [send_text_message]:
    [f"***{to_clean[-4:]}" if len(to_clean) > 4 else "****"]. *)
Definition masked (to_clean : string) : string :=
  if (4 <? String.length to_clean)%nat
  then "***" ++ str_last 4 to_clean
  else "****".

End Masking.

(** ** app/main.py: the other admin routes *)

Module AdminRoutes.

(** The calls that the routes make to the alert service, which is not part
    of the modelled sources: a call is represented by its outcome as a
    function of the method and its arguments, and is recorded. *)
Inductive ServiceCall : Type :=
| SendBroadcast (message alert_type priority : json)
| SendEmergencyAlert (message affected_area instructions : json)
| SendHealthTip (message category : json).

Definition AlertService : Type := ServiceCall -> result json.

Definition calls : Type := list ServiceCall.

Definition call (service : AlertService) (c : ServiceCall) : M calls json :=
  fun log => (service c, (log ++ [c])%list).

(** The two [except] clauses shared by the admin handlers. *)
Definition reraise_as_500 {A} (e : exn) : M calls A :=
  match e with
  | HTTPException _ _ => raise e
  | _ => raise (HTTPException 500 (str_of_exn e))
  end.

(** [send_broadcast_alert], over the recorded calls. *)
Definition send_broadcast_alert (admin_alert_service : option AlertService)
  (body : result json) : M calls handler_value :=
  try_exceptM
    (data <- lift body ;;
     message <- lift (py_get data "message" JNull) ;;
     alert_type <- lift (py_get data "alert_type" (JStr "info")) ;;
     priority <- lift (py_get data "priority" (JStr "normal")) ;;
     if negb (truthy message) then
       raise (HTTPException 400 "Message is required")
     else
       match admin_alert_service with
       | Some service =>
           result <- call service (SendBroadcast message alert_type priority) ;;
           ret (ReturnDict
                  (JObj [("status", JStr "success");
                         ("message", JStr "Broadcast alert sent successfully");
                         ("result", result)]))
       | None => raise (HTTPException 503 "Alert service not available")
       end)%M
    reraise_as_500.

(** [send_emergency_alert]. *)
Definition send_emergency_alert (admin_alert_service : option AlertService)
  (body : result json) : M calls handler_value :=
  try_exceptM
    (data <- lift body ;;
     message <- lift (py_get data "message" JNull) ;;
     affected_area <- lift (py_get data "affected_area" JNull) ;;
     instructions <- lift (py_get data "instructions" JNull) ;;
     if negb (truthy message) then
       raise (HTTPException 400 "Message is required")
     else
       match admin_alert_service with
       | Some service =>
           result <- call service
                       (SendEmergencyAlert message affected_area instructions) ;;
           ret (ReturnDict
                  (JObj [("status", JStr "success");
                         ("message", JStr "Emergency alert sent successfully");
                         ("result", result)]))
       | None => raise (HTTPException 503 "Alert service not available")
       end)%M
    reraise_as_500.

(** [send_health_tip]. *)
Definition send_health_tip (admin_alert_service : option AlertService)
  (body : result json) : M calls handler_value :=
  try_exceptM
    (data <- lift body ;;
     message <- lift (py_get data "message" JNull) ;;
     category <- lift (py_get data "category" JNull) ;;
     if negb (truthy message) then
       raise (HTTPException 400 "Message is required")
     else
       match admin_alert_service with
       | Some service =>
           result <- call service (SendHealthTip message category) ;;
           ret (ReturnDict
                  (JObj [("status", JStr "success");
                         ("message", JStr "Health tip sent successfully");
                         ("result", result)]))
       | None => raise (HTTPException 503 "Alert service not available")
       end)%M
    reraise_as_500.

(** [api_stats]. *)
Definition api_stats : M calls handler_value :=
  try_exceptM
    (ret (ReturnDict
            (JObj [("status", JStr "success");
                   ("stats", JObj [("total_messages", JInt 0);
                                   ("active_users", JInt 0);
                                   ("total_alerts_sent", JInt 0);
                                   ("uptime", JStr "N/A")])])))
    (fun e => raise (HTTPException 500 (str_of_exn e))).

(** The admin routes that depend on [admin_auth_required]. *)
Inductive route : Type :=
| Broadcast
| Emergency
| HealthTip
| Stats.

(** A request to one of them: the dependency runs first, then the
    handler. *)
Definition serve (settings : Settings)
  (admin_alert_service : option AlertService) (r : route)
  (x_api_key : option string) (body : result json) : M calls handler_value :=
  (lift (Main.admin_auth_required settings x_api_key) ;;;
   match r with
   | Broadcast => send_broadcast_alert admin_alert_service body
   | Emergency => send_emergency_alert admin_alert_service body
   | HealthTip => send_health_tip admin_alert_service body
   | Stats => api_stats
   end)%M.

End AdminRoutes.

(** ** send_alert.py: the functions that call [send_alert_with_retry] *)

Module AlertScript.

Definition broadcast_message (settings : Settings) : string :=
  unlines [
    "🚨 HEALTH EMERGENCY ALERT";
    "";
    "⚠️  Dengue Outbreak Reported in Your Area";
    "";
    "📋 SYMPTOMS TO WATCH FOR:";
    "• High fever";
    "• Severe headache";
    "• Joint pain";
    "• Rash";
    "• Nausea";
    "• Vomiting";
    "";
    "🛡️  PREVENTIVE MEASURES:";
    "• Use mosquito repellent";
    "• Wear long sleeves";
    "• Eliminate standing water";
    "• Seek medical care early";
    "";
    "📞 EMERGENCY CONTACTS:";
    "• Emergency Services: " ++ emergency_number settings;
    "• Government Helpline: 1075";
    "";
    "💡 This is an official health advisory."
  ].

Definition health_tip_message (settings : Settings) : string :=
  unlines [
    "💡 DAILY HEALTH TIP";
    "";
    "✅ HEALTHY LIFESTYLE TIPS:";
    "• Stay hydrated (8 glasses daily)";
    "• Exercise 30 minutes daily";
    "• Eat balanced nutritious meals";
    "• Get 7-8 hours quality sleep";
    "";
    "📞 Emergency: Call " ++ emergency_number settings;
    "";
    "💡 This is general guidance - individual needs vary!"
  ].

Definition url : string := "http://localhost:5000/admin/broadcast".

Definition headers (settings : Settings) : json :=
  JObj [("X-API-Key", JStr (admin_api_key settings));
        ("Content-Type", JStr "application/json")].

Definition broadcast_payload (settings : Settings) : json :=
  JObj [("message", JStr (broadcast_message settings));
        ("alert_type", JStr "emergency");
        ("priority", JStr "high")].

Definition health_tip_payload (settings : Settings) : json :=
  JObj [("message", JStr (health_tip_message settings));
        ("alert_type", JStr "health_tip");
        ("priority", JStr "normal")].

(** [response.status_code] where [response] may be [None]. *)
Definition status_code_of (response : option Response) : result Z :=
  match response with
  | Some r => Ok (status_code r)
  | None => Raise (AttributeError "'NoneType' object has no attribute 'status_code'")
  end.

(** [send_broadcast_alert] of the script. *)
Definition send_broadcast_alert (server : SendAlert.Server) (settings : Settings)
  : M SendAlert.trace unit :=
  try_exceptM
    (response <- SendAlert.send_alert_with_retry server url "POST"
                   SendAlert.default_max_retries 120
                   (headers settings) (broadcast_payload settings) ;;
     status <- lift (status_code_of response) ;;
     if status =? 200 then
       match response with
       | Some r => (lift (response_json r) ;;; ret tt)
       | None => ret tt
       end
     else ret tt)%M
    (fun e => ret tt).

(** [send_health_tip] of the script. *)
Definition send_health_tip (server : SendAlert.Server) (settings : Settings)
  : M SendAlert.trace unit :=
  try_exceptM
    (response <- SendAlert.send_alert_with_retry server url "POST"
                   SendAlert.default_max_retries 120
                   (headers settings) (health_tip_payload settings) ;;
     status <- lift (status_code_of response) ;;
     if status =? 200 then ret tt else ret tt)%M
    (fun e => ret tt).

(** [main] of the script. *)
Definition main (server : SendAlert.Server) (settings : Settings)
  : M SendAlert.trace unit :=
  try_exceptM
    (send_broadcast_alert server settings ;;;
     SendAlert.sleep 2 ;;;
     send_health_tip server settings)%M
    (fun e => ret tt).

End AlertScript.

(** ** Descriptions used to state the further properties *)

Module Views.

(** A webhook delivery with one entry and one change carrying [value]. *)
Definition delivery (value : json) : json :=
  JObj [("entry", JArr [JObj [("changes", JArr [JObj [("value", value)]])]])].

(** The text of a message: the empty string when it has no [text], the
    [body] of its [text] object (the empty string when that has none);
    nothing when [text] is not an object. *)
Definition text_view (message : list (string * json)) : option json :=
  match lookup "text" message with
  | None => Some (JStr "")
  | Some (JObj text) =>
      Some (match lookup "body" text with Some b => b | None => JStr "" end)
  | Some _ => None
  end.

(** The name in a contact: "Unknown" when it has no [profile] or the
    profile has no [name]; nothing when [profile] is not an object. *)
Definition profile_name (contact : list (string * json)) : option json :=
  match lookup "profile" contact with
  | None => Some (JStr "Unknown")
  | Some (JObj profile) =>
      Some (match lookup "name" profile with
            | Some n => n
            | None => JStr "Unknown"
            end)
  | Some _ => None
  end.

(** The contact name for a [value]: "Unknown" when [contacts] is missing
    or false; the name of its first element when that is an object;
    nothing otherwise. *)
Definition name_view (value : list (string * json)) : option json :=
  match lookup "contacts" value with
  | None => Some (JStr "Unknown")
  | Some contacts =>
      if truthy contacts then
        match contacts with
        | JArr (JObj contact :: _) => profile_name contact
        | _ => None
        end
      else Some (JStr "Unknown")
  end.

Definition field (k : string) (message : list (string * json)) : json :=
  match lookup k message with
  | Some v => v
  | None => JNull
  end.

(** The record for the first message of a [value] whose [messages] array
    starts with an object. *)
Definition record_view (value message : list (string * json)) : json :=
  match text_view message, name_view value with
  | Some text, Some name =>
      JObj [("message_id", field "id" message);
            ("from", field "from" message);
            ("timestamp", field "timestamp" message);
            ("type", field "type" message);
            ("text", text);
            ("contact_name", name)]
  | _, _ => JNull
  end.

(** What the parser yields, read off the shape of the payload. *)
Definition parse_view (data : json) : json :=
  match Spec.value_at_path data with
  | Some (JObj value) =>
      match lookup "messages" value with
      | Some (JArr (JObj message :: _)) => record_view value message
      | _ => JNull
      end
  | _ => JNull
  end.

(** A string without white space: no keyword contains any. *)
Fixpoint no_space (s : string) : bool :=
  match s with
  | EmptyString => true
  | String c s' => negb (is_space c) && no_space s'
  end.

(** The message that a handler passes to the service. *)
Definition call_message (c : AdminRoutes.ServiceCall) : json :=
  match c with
  | AdminRoutes.SendBroadcast m _ _ => m
  | AdminRoutes.SendEmergencyAlert m _ _ => m
  | AdminRoutes.SendHealthTip m _ => m
  end.

(** The route that makes a call. *)
Definition call_route (c : AdminRoutes.ServiceCall) : AdminRoutes.route :=
  match c with
  | AdminRoutes.SendBroadcast _ _ _ => AdminRoutes.Broadcast
  | AdminRoutes.SendEmergencyAlert _ _ _ => AdminRoutes.Emergency
  | AdminRoutes.SendHealthTip _ _ => AdminRoutes.HealthTip
  end.

(** The key that reaches a route in the header [X-API-Key] of a request
    made with these headers.  The HTTP client of the script encodes header
    values as ASCII and raises on any other value, before anything is
    sent: only an ASCII key reaches a route. *)
Definition api_key_header (headers : json) : option string :=
  match headers with
  | JObj fields =>
      match lookup "X-API-Key" fields with
      | Some (JStr key) => if is_ascii_string key then Some key else None
      | _ => None
      end
  | _ => None
  end.

(** A keyword for which trimming cannot matter. *)
Definition keyword_ok (k : string) : bool :=
  negb (is_empty_string k) && no_space k.

(** A string of white space only. *)
Fixpoint all_space (s : string) : bool :=
  match s with
  | EmptyString => true
  | String c s' => is_space c && all_space s'
  end.

(** The seconds slept in a trace. *)
Fixpoint total_sleep (t : SendAlert.trace) : Z :=
  match t with
  | [] => 0
  | SendAlert.Sleep seconds :: rest => seconds + total_sleep rest
  | _ :: rest => total_sleep rest
  end.

End Views.

(* ====================================================================== *)
(** * Properties of the string functions *)
(* ====================================================================== *)

Lemma startswith_app (p s : string) : startswith (p ++ s) p = true.
Proof.
  induction p as [|c p IH]; simpl.
  - reflexivity.
  - rewrite Ascii.eqb_refl. exact IH.
Qed.

Lemma startswith_inv (p s : string) :
  startswith s p = true -> exists rest, s = p ++ rest.
Proof.
  revert s. induction p as [|c p IH]; intros s H.
  - exists s. reflexivity.
  - destruct s as [|d s]; simpl in H; [discriminate|].
    apply andb_true_iff in H. destruct H as [Hc Hs].
    apply Ascii.eqb_eq in Hc. subst d.
    destruct (IH s Hs) as [rest ->]. exists rest. reflexivity.
Qed.

Lemma str_in_unfold (k s : string) :
  str_in k s =
  startswith s k || match s with
                    | EmptyString => false
                    | String _ s' => str_in k s'
                    end.
Proof. destruct s; reflexivity. Qed.

(** [k in s] holds exactly when [k] occurs in [s]. *)
Lemma str_in_occurs (k s : string) :
  str_in k s = true <-> Spec.occurs_in k s.
Proof.
  unfold Spec.occurs_in. split.
  - induction s as [|c s IH]; rewrite str_in_unfold; intros H.
    + rewrite orb_false_r in H. apply startswith_inv in H.
      destruct H as [rest ->]. exists EmptyString, rest. reflexivity.
    + apply orb_true_iff in H. destruct H as [H|H].
      * apply startswith_inv in H. destruct H as [rest ->].
        exists EmptyString, rest. reflexivity.
      * destruct (IH H) as (b & a & ->). exists (String c b), a. reflexivity.
  - intros (b & a & ->). induction b as [|c b IH].
    + change (EmptyString ++ k ++ a) with (k ++ a).
      rewrite str_in_unfold, startswith_app. reflexivity.
    + change (String c b ++ k ++ a) with (String c (b ++ k ++ a)).
      rewrite str_in_unfold, IH. apply orb_true_r.
Qed.

Lemma replace_char_remove (c : ascii) (s : string) :
  replace s (String c EmptyString) "" = Spec.remove_char c s.
Proof.
  unfold replace. induction s as [|d s IH]; simpl; [reflexivity|].
  rewrite andb_true_r.
  destruct (Ascii.eqb c d); simpl; rewrite IH; reflexivity.
Qed.

(* ====================================================================== *)
(** * Recipient normalization (whatsapp.py, lines 42-44) *)
(* ====================================================================== *)

Lemma remove_char_cons (c d : ascii) (s : string) :
  Spec.remove_char c (String d s) =
  if Ascii.eqb c d then Spec.remove_char c s
  else String d (Spec.remove_char c s).
Proof. reflexivity. Qed.

Lemma strip_separators_cons (d : ascii) (s : string) :
  Spec.strip_separators (String d s) =
  if Spec.separator d then Spec.strip_separators s
  else String d (Spec.strip_separators s).
Proof.
  unfold Spec.strip_separators, Spec.separator.
  rewrite (Ascii.eqb_sym d "+"), (Ascii.eqb_sym d " "), (Ascii.eqb_sym d "-").
  rewrite (remove_char_cons "+").
  destruct (Ascii.eqb "+" d) eqn:E1; [reflexivity|].
  rewrite (remove_char_cons " ").
  destruct (Ascii.eqb " " d) eqn:E2; [reflexivity|].
  rewrite (remove_char_cons "-").
  destruct (Ascii.eqb "-" d) eqn:E3; reflexivity.
Qed.

Lemma strip_separators_free (s : string) :
  Spec.free_of_separators (Spec.strip_separators s).
Proof.
  induction s as [|d s IH]; [exact I|].
  rewrite strip_separators_cons.
  destruct (Spec.separator d) eqn:E; [exact IH|].
  simpl. split; assumption.
Qed.

Lemma strip_separators_fixed (s : string) :
  Spec.free_of_separators s -> Spec.strip_separators s = s.
Proof.
  induction s as [|d s IH]; intros H; [reflexivity|].
  destruct H as [Hd Hs].
  rewrite strip_separators_cons, Hd, (IH Hs). reflexivity.
Qed.

Lemma free_not_startswith_plus (s : string) :
  Spec.free_of_separators s -> startswith s "+" = false.
Proof.
  destruct s as [|d s]; intros H; [reflexivity|].
  destruct H as [Hd _]. unfold Spec.separator in Hd.
  apply orb_false_iff in Hd. destruct Hd as [Hd _].
  apply orb_false_iff in Hd. destruct Hd as [Hd _].
  change (startswith (String d s) "+") with (Ascii.eqb "+" d && true).
  rewrite Ascii.eqb_sym, Hd. reflexivity.
Qed.

(** The branch that keeps an existing plus sign is never taken: the result
    is always a plus sign followed by the input without its separators. *)
Lemma to_clean_eq (to : string) :
  WhatsApp.to_clean to = String "+" (Spec.strip_separators to).
Proof.
  unfold WhatsApp.to_clean.
  rewrite (replace_char_remove "+"), (replace_char_remove " "),
    (replace_char_remove "-").
  fold (Spec.strip_separators to).
  rewrite (free_not_startswith_plus _ (strip_separators_free to)).
  reflexivity.
Qed.

Lemma to_clean_idempotent (to : string) :
  WhatsApp.to_clean (WhatsApp.to_clean to) = WhatsApp.to_clean to.
Proof.
  rewrite !to_clean_eq. f_equal.
  rewrite strip_separators_cons. simpl.
  apply strip_separators_fixed, strip_separators_free.
Qed.

(* ====================================================================== *)
(** * The outbound send operation *)
(* ====================================================================== *)

(** Unfolding of the operations on computations. *)
Ltac run :=
  unfold bind, lift, ret, raise, try_exceptM, rbind, try_except; simpl.

(** What [send_text_message] does for a [str] recipient, case by case on
    the gateway's reaction. *)
Lemma send_text_message_str (gateway : Gateway) (to text : string) (w : world) :
  let payload := WhatsApp.payload_of (WhatsApp.to_clean to) text in
  let w' := {| client := true;
               posts := posts w ++ [payload];
               broadcasts := broadcasts w |} in
  WhatsApp.send_text_message gateway (JStr to) text w =
  (match gateway (List.length (posts w)) payload with
   | Raise e => Ok (Spec.failure_value (JStr (str_of_exn e)))
   | Ok response =>
       match response_json response with
       | Raise e => Ok (Spec.failure_value (JStr (str_of_exn e)))
       | Ok v =>
           if (200 <=? status_code response) && (status_code response <? 300)
           then Ok v
           else Ok (Spec.failure_value v)
       end
   end, w').
Proof.
  unfold WhatsApp.send_text_message, WhatsApp.ensure_client,
    WhatsApp.client_post, WhatsApp.format_recipient, Spec.failure_value.
  run.
  assert (Hc : posts (if client w then w
                      else {| client := true; posts := posts w;
                              broadcasts := broadcasts w |}) = posts w)
    by (destruct (client w); reflexivity).
  assert (Hb : broadcasts (if client w then w
                      else {| client := true; posts := posts w;
                              broadcasts := broadcasts w |}) = broadcasts w)
    by (destruct (client w); reflexivity).
  assert (Hk : client (if client w then w
                      else {| client := true; posts := posts w;
                              broadcasts := broadcasts w |}) = true)
    by (destruct (client w) eqn:E; [exact E | reflexivity]).
  rewrite Hc, Hb, Hk.
  destruct (gateway _ _) as [response|e]; [|reflexivity].
  destruct ((200 <=? status_code response) && (status_code response <? 300));
    destruct (response_json response); reflexivity.
Qed.

(** For a [str] recipient the operation returns a value. *)
Lemma send_text_message_returns
  (gateway : Gateway) (to text : string) (w : world) :
  exists r, fst (WhatsApp.send_text_message gateway (JStr to) text w) = Ok r.
Proof.
  rewrite send_text_message_str. cbn [fst].
  destruct (gateway _ _) as [response|e]; [|eexists; reflexivity].
  destruct (response_json response); [|eexists; reflexivity].
  destruct (_ && _); eexists; reflexivity.
Qed.

(** C10. For every recipient string, the identifier that [send_text_message]
    forwards to the gateway is [to_clean to]; it is a plus sign followed by
    a string without plus sign, space or hyphen, and normalizing it again
    leaves it unchanged. *)
Theorem recipient_forwarded_normalized
  (gateway : Gateway) (to text : string) (w : world) :
  posts (snd (WhatsApp.send_text_message gateway (JStr to) text w)) =
    (posts w ++ [WhatsApp.payload_of (WhatsApp.to_clean to) text])%list
  /\ py_get (WhatsApp.payload_of (WhatsApp.to_clean to) text) "to" JNull =
       Ok (JStr (WhatsApp.to_clean to))
  /\ (exists rest, WhatsApp.to_clean to = String "+" rest
                   /\ Spec.free_of_separators rest)
  /\ WhatsApp.to_clean (WhatsApp.to_clean to) = WhatsApp.to_clean to.
Proof.
  split; [|split; [|split]].
  - rewrite send_text_message_str. reflexivity.
  - reflexivity.
  - exists (Spec.strip_separators to). split.
    + apply to_clean_eq.
    + apply strip_separators_free.
  - apply to_clean_idempotent.
Qed.




(* ====================================================================== *)
(** * The webhook handshake (main.py, verify_webhook) *)
(* ====================================================================== *)

Lemma opt_str_eqb_eq (a : option string) (b : string) :
  Main.opt_str_eqb a b = true <-> a = Some b.
Proof.
  destruct a as [s|]; simpl.
  - rewrite String.eqb_eq. split; [intros ->; reflexivity | congruence].
  - split; discriminate.
Qed.

(** C9. The handshake succeeds exactly when the mode is "subscribe" and the
    token equals the configured verify-token; then the answer is a 200
    whose body is the supplied challenge, unchanged; otherwise the answer
    is a 403 whose body does not depend on the challenge. *)
Theorem verify_webhook_handshake
  (settings : Settings) (mode token challenge : option string) :
  let answer := Main.verify_webhook settings mode token challenge in
  let accepted := mode = Some "subscribe" /\ token = Some (verify_token settings) in
  ((exists v, answer = Ok v) <-> accepted)
  /\ (accepted ->
      answer = Ok (ReturnResponse challenge "text/plain")
      /\ respond answer =
           {| http_status := 200;
              http_body_of :=
                BodyText (match challenge with Some c => c | None => "" end) |})
  /\ (~ accepted ->
      respond answer =
        {| http_status := 403;
           http_body_of := BodyJSON (JObj [("detail", JStr "Verification failed")]) |}).
Proof.
  intros answer accepted. subst answer accepted.
  unfold Main.verify_webhook.
  destruct (Main.opt_str_eqb mode "subscribe") eqn:Hm;
    destruct (Main.opt_str_eqb token (verify_token settings)) eqn:Ht; simpl.
  - apply opt_str_eqb_eq in Hm, Ht. subst.
    split; [|split].
    + split; [intros _; split; reflexivity | intros _; eexists; reflexivity].
    + intros _. split; reflexivity.
    + intros H. exfalso. apply H. split; reflexivity.
  - assert (Hn : token <> Some (verify_token settings)).
    { intros H. apply opt_str_eqb_eq in H. congruence. }
    split; [|split].
    + split; [intros [v Hv]; discriminate | intros [_ H]; contradiction].
    + intros [_ H]; contradiction.
    + reflexivity.
  - assert (Hn : mode <> Some "subscribe").
    { intros H. apply opt_str_eqb_eq in H. congruence. }
    split; [|split].
    + split; [intros [v Hv]; discriminate | intros [H _]; contradiction].
    + intros [H _]; contradiction.
    + reflexivity.
  - assert (Hn : mode <> Some "subscribe").
    { intros H. apply opt_str_eqb_eq in H. congruence. }
    split; [|split].
    + split; [intros [v Hv]; discriminate | intros [H _]; contradiction].
    + intros [H _]; contradiction.
    + reflexivity.
Qed.

(** The handshake of the specification: challenge "abc123" with the right
    and with a wrong token. *)
Lemma verify_webhook_handshake_witness :
  respond (Main.verify_webhook Examples.settings (Some "subscribe")
             (Some "my-verify-token") (Some "abc123"))
  = {| http_status := 200; http_body_of := BodyText "abc123" |}
  /\ respond (Main.verify_webhook Examples.settings (Some "subscribe")
                (Some "wrong") (Some "abc123"))
     = {| http_status := 403;
          http_body_of := BodyJSON (JObj [("detail", JStr "Verification failed")]) |}.
Proof.
  split.
  - apply (proj1 (proj2 (verify_webhook_handshake Examples.settings
             (Some "subscribe") (Some "my-verify-token") (Some "abc123")))).
    split; reflexivity.
  - apply (proj2 (proj2 (verify_webhook_handshake Examples.settings
             (Some "subscribe") (Some "wrong") (Some "abc123")))).
    intros [_ H]. discriminate H.
Defined.

(* ====================================================================== *)
(** * The payload parser (whatsapp.py, parse_webhook_message) *)
(* ====================================================================== *)

(** A [try] whose handler returns can only return. *)
Lemma try_except_returns {A} (body : result A) (f : exn -> A) :
  exists v, try_except body (fun e => Ok (f e)) = Ok v.
Proof. destruct body; eexists; reflexivity. Qed.

Lemma parse_webhook_message_returns (data : json) :
  exists v, WhatsApp.parse_webhook_message data = Ok v.
Proof. apply (try_except_returns _ (fun _ => JNull)). Qed.

(** One step of the case analysis that follows the parser down the
    payload: on a value, on a dict lookup, or on a truth test. *)
Ltac case_step :=
  match goal with
  | |- context [match ?x with _ => _ end] => is_var x; destruct x
  | |- context [if ?x then _ else _] => is_var x; destruct x
  | |- context [negb ?x] => is_var x; destruct x
  | |- context [lookup ?k ?f] => destruct (lookup k f)
  | |- context [(?n =? 0)%Z] => destruct (n =? 0)%Z
  | |- context [PrimFloat.eqb ?f ?z] => destruct (PrimFloat.eqb f z)
  end.

(** C3. When the path entries[0].changes[0].value of a payload carries no
    non-empty [messages] array (a key is missing, an array is empty, or a
    value has another shape, at any level), [parse_webhook_message]
    returns [None], and it does so without raising. *)
Theorem parse_without_messages_is_none (data : json) :
  Spec.messages_of data = [] ->
  WhatsApp.parse_webhook_message data = Ok JNull.
Proof.
  unfold Spec.messages_of, Spec.value_at_path, WhatsApp.parse_webhook_message,
    try_except, rbind, py_get, py_index0, truthy, is_empty_string.
  repeat (cbn; try (intros; first [reflexivity | discriminate]); case_step).
Qed.

(** A delivery receipt, an empty object and an empty [entry] array. *)
Lemma parse_without_messages_is_none_witness :
  WhatsApp.parse_webhook_message Examples.status_event = Ok JNull
  /\ WhatsApp.parse_webhook_message (JObj []) = Ok JNull
  /\ WhatsApp.parse_webhook_message (JObj [("entry", JArr [])]) = Ok JNull.
Proof.
  split; [|split]; apply parse_without_messages_is_none; reflexivity.
Defined.

(* ====================================================================== *)
(** * The reply generator (message_processor.py, generate_response) *)
(* ====================================================================== *)

Lemma any_in_matches (keywords : list string) (text : string) :
  MessageProcessor.any_in keywords text = true <-> Spec.matches keywords text.
Proof.
  unfold MessageProcessor.any_in, Spec.matches. rewrite existsb_exists.
  split; intros (k & Hk & H); exists k; (split; [exact Hk|]);
    apply str_in_occurs; exact H.
Qed.

Lemma any_in_no_match (keywords : list string) (text : string) :
  MessageProcessor.any_in keywords text = false <-> ~ Spec.matches keywords text.
Proof.
  rewrite <- any_in_matches.
  destruct (MessageProcessor.any_in keywords text); split;
    congruence || (intros H; exfalso; apply H; reflexivity).
Qed.

(** On a [str], the chain of [if]/[elif] is the first match over the
    ordered categories. *)
Lemma generate_response_route
  (settings : Settings) (text : string) (from_number : json) :
  MessageProcessor.generate_response settings (JStr text) from_number =
  Ok (Spec.route settings text).
Proof.
  unfold MessageProcessor.generate_response, Spec.route, Spec.categories,
    Spec.first_match, try_except, rbind, MessageProcessor.py_lower.
  fold (MessageProcessor.any_in Spec.greeting_keywords (strip (lower text))).
  fold (MessageProcessor.any_in Spec.emergency_keywords (strip (lower text))).
  fold (MessageProcessor.any_in Spec.symptom_keywords (strip (lower text))).
  fold (MessageProcessor.any_in Spec.medicine_keywords (strip (lower text))).
  fold (MessageProcessor.any_in Spec.facility_keywords (strip (lower text))).
  change ["hi"; "hello"; "hey"; "namaste"] with Spec.greeting_keywords.
  change ["emergency"; "urgent"; "critical"; "help"] with Spec.emergency_keywords.
  change ["symptom"; "pain"; "fever"; "cough"; "headache"]
    with Spec.symptom_keywords.
  change ["medicine"; "medication"; "drug"; "tablet"] with Spec.medicine_keywords.
  change ["hospital"; "clinic"; "doctor"; "nearby"] with Spec.facility_keywords.
  destruct (MessageProcessor.any_in Spec.greeting_keywords _); [reflexivity|].
  destruct (MessageProcessor.any_in Spec.emergency_keywords _); [reflexivity|].
  destruct (MessageProcessor.any_in Spec.symptom_keywords _); [reflexivity|].
  destruct (MessageProcessor.any_in Spec.medicine_keywords _); [reflexivity|].
  destruct (MessageProcessor.any_in Spec.facility_keywords _); reflexivity.
Qed.

(** The first match, read off the categories in their order. *)
Lemma route_ordered (settings : Settings) (text : string) :
  let t := strip (lower text) in
  let reply := Spec.route settings text in
  (Spec.matches Spec.greeting_keywords t ->
     reply = MessageProcessor.greeting_reply)
  /\ (~ Spec.matches Spec.greeting_keywords t ->
      Spec.matches Spec.emergency_keywords t ->
      reply = MessageProcessor.emergency_reply (emergency_number settings))
  /\ (~ Spec.matches Spec.greeting_keywords t ->
      ~ Spec.matches Spec.emergency_keywords t ->
      Spec.matches Spec.symptom_keywords t ->
      reply = MessageProcessor.symptom_reply)
  /\ (~ Spec.matches Spec.greeting_keywords t ->
      ~ Spec.matches Spec.emergency_keywords t ->
      ~ Spec.matches Spec.symptom_keywords t ->
      Spec.matches Spec.medicine_keywords t ->
      reply = MessageProcessor.medicine_reply)
  /\ (~ Spec.matches Spec.greeting_keywords t ->
      ~ Spec.matches Spec.emergency_keywords t ->
      ~ Spec.matches Spec.symptom_keywords t ->
      ~ Spec.matches Spec.medicine_keywords t ->
      Spec.matches Spec.facility_keywords t ->
      reply = MessageProcessor.facility_reply)
  /\ (~ Spec.matches Spec.greeting_keywords t ->
      ~ Spec.matches Spec.emergency_keywords t ->
      ~ Spec.matches Spec.symptom_keywords t ->
      ~ Spec.matches Spec.medicine_keywords t ->
      ~ Spec.matches Spec.facility_keywords t ->
      reply = MessageProcessor.default_reply).
Proof.
  intros t reply. subst reply. unfold Spec.route, Spec.categories, Spec.first_match.
  fold t.
  fold (MessageProcessor.any_in Spec.greeting_keywords t).
  fold (MessageProcessor.any_in Spec.emergency_keywords t).
  fold (MessageProcessor.any_in Spec.symptom_keywords t).
  fold (MessageProcessor.any_in Spec.medicine_keywords t).
  fold (MessageProcessor.any_in Spec.facility_keywords t).
  repeat split; intros;
    repeat match goal with
      | H : Spec.matches _ _ |- _ => apply any_in_matches in H; rewrite H; clear H
      | H : ~ Spec.matches _ _ |- _ =>
          apply any_in_no_match in H; rewrite H; clear H
      end;
    reflexivity.
Qed.

(** C2. On every text, [generate_response] lower-cases and trims it and
    returns the reply of the first category, in the order greeting,
    emergency, symptom, medicine, facility, one of whose keywords occurs in
    it as a substring, and the generic menu when none does.  Matching
    ignores case; "helper" gets the emergency reply; an emergency keyword
    wins over symptom, medicine and facility keywords: with one present,
    the reply is the emergency reply, or the greeting when a greeting
    keyword is present too. *)
Theorem generate_response_first_match
  (settings : Settings) (text : string) (from_number : json) :
  let t := strip (lower text) in
  let answer := MessageProcessor.generate_response settings (JStr text) from_number in
  answer = Ok (Spec.route settings text)
  /\ (forall k s, str_in k s = true <-> Spec.occurs_in k s)
  /\ (Spec.matches Spec.greeting_keywords t ->
      answer = Ok MessageProcessor.greeting_reply)
  /\ (~ Spec.matches Spec.greeting_keywords t ->
      Spec.matches Spec.emergency_keywords t ->
      answer = Ok (MessageProcessor.emergency_reply (emergency_number settings)))
  /\ (~ Spec.matches Spec.greeting_keywords t ->
      ~ Spec.matches Spec.emergency_keywords t ->
      Spec.matches Spec.symptom_keywords t ->
      answer = Ok MessageProcessor.symptom_reply)
  /\ (~ Spec.matches Spec.greeting_keywords t ->
      ~ Spec.matches Spec.emergency_keywords t ->
      ~ Spec.matches Spec.symptom_keywords t ->
      Spec.matches Spec.medicine_keywords t ->
      answer = Ok MessageProcessor.medicine_reply)
  /\ (~ Spec.matches Spec.greeting_keywords t ->
      ~ Spec.matches Spec.emergency_keywords t ->
      ~ Spec.matches Spec.symptom_keywords t ->
      ~ Spec.matches Spec.medicine_keywords t ->
      Spec.matches Spec.facility_keywords t ->
      answer = Ok MessageProcessor.facility_reply)
  /\ (~ Spec.matches Spec.greeting_keywords t ->
      ~ Spec.matches Spec.emergency_keywords t ->
      ~ Spec.matches Spec.symptom_keywords t ->
      ~ Spec.matches Spec.medicine_keywords t ->
      ~ Spec.matches Spec.facility_keywords t ->
      answer = Ok MessageProcessor.default_reply)
  /\ (Spec.matches Spec.emergency_keywords t ->
      answer = Ok MessageProcessor.greeting_reply
      \/ answer = Ok (MessageProcessor.emergency_reply (emergency_number settings)))
  /\ (forall text', lower text' = lower text ->
      MessageProcessor.generate_response settings (JStr text') from_number = answer)
  /\ MessageProcessor.generate_response settings (JStr "helper") from_number =
     Ok (MessageProcessor.emergency_reply (emergency_number settings)).
Proof.
  intros t answer. subst answer.
  rewrite generate_response_route.
  destruct (route_ordered settings text) as (H1 & H2 & H3 & H4 & H5 & H6).
  fold t in H1, H2, H3, H4, H5, H6.
  split; [reflexivity|].
  split; [exact str_in_occurs|].
  split; [intros; f_equal; auto|].
  split; [intros; f_equal; auto|].
  split; [intros; f_equal; auto|].
  split; [intros; f_equal; auto|].
  split; [intros; f_equal; auto|].
  split; [intros; f_equal; auto|].
  split.
  { intros He.
    destruct (MessageProcessor.any_in Spec.greeting_keywords t) eqn:Hg.
    - left. f_equal. apply H1, any_in_matches, Hg.
    - right. f_equal. apply H2; [apply any_in_no_match, Hg | exact He]. }
  split.
  - intros text' Heq. rewrite generate_response_route.
    unfold Spec.route. rewrite Heq. reflexivity.
  - rewrite generate_response_route. reflexivity.
Qed.

(** A text with an emergency and two symptom keywords, in upper case. *)
Lemma generate_response_first_match_witness :
  Spec.matches Spec.emergency_keywords "urgent: fever and cough"
  /\ Spec.matches Spec.symptom_keywords "urgent: fever and cough"
  /\ MessageProcessor.generate_response Examples.settings
       (JStr "  URGENT: fever and cough ") JNull
     = Ok (MessageProcessor.emergency_reply "112").
Proof.
  split; [apply any_in_matches; reflexivity|].
  split; [apply any_in_matches; reflexivity|].
  apply (proj1 (proj2 (proj2 (proj2
           (generate_response_first_match Examples.settings
              "  URGENT: fever and cough " JNull))))).
  - apply any_in_no_match. reflexivity.
  - apply any_in_matches. reflexivity.
Defined.

(* ====================================================================== *)
(** * The pipeline orchestrator (message_processor.py, process_webhook) *)
(* ====================================================================== *)

Lemma route_nonempty (settings : Settings) (text : string) :
  is_empty_string (Spec.route settings text) = false.
Proof.
  unfold Spec.route, Spec.categories, Spec.first_match.
  repeat match goal with
    | |- context [if ?b then _ else _] => destruct b; [reflexivity|]
    end.
  reflexivity.
Qed.

(** A [try] whose handler returns can only return, also over a world. *)
Lemma try_exceptM_returns {W A} (body : M W A) (f : exn -> A) (w : W) :
  exists v w', try_exceptM body (fun e => ret (f e)) w = (Ok v, w').
Proof.
  unfold try_exceptM, ret.
  destruct (body w) as [[a|e] w']; eexists; eexists; reflexivity.
Qed.

Lemma process_webhook_returns
  (settings : Settings) (gateway : Gateway) (data : json) (w : world) :
  exists v w',
    MessageProcessor.process_webhook settings gateway data w = (Ok v, w').
Proof.
  apply (try_exceptM_returns _
           (fun e => JObj [("status", JStr "error");
                           ("error", JStr (str_of_exn e))])).
Qed.

(** C1. [process_webhook] makes no send attempt and returns
    [{status: "no_message"}] when parsing yields no message; when parsing
    yields a record whose sender and text are strings it makes exactly one
    send attempt, to the normalized sender with the routed reply, and
    returns [{status: "processed", sent: r}] where [r] is the value that
    [send_text_message] returned. *)
Theorem process_webhook_one_send
  (settings : Settings) (gateway : Gateway) (data : json) (w : world) :
  (WhatsApp.parse_webhook_message data = Ok JNull ->
   MessageProcessor.process_webhook settings gateway data w =
   (Ok (JObj [("status", JStr "no_message")]), w))
  /\ (forall record sender text,
        WhatsApp.parse_webhook_message data = Ok (JObj record) ->
        lookup "from" record = Some (JStr sender) ->
        lookup "text" record = Some (JStr text) ->
        let reply := Spec.route settings text in
        let sent := WhatsApp.send_text_message gateway (JStr sender) reply w in
        exists r,
          fst sent = Ok r
          /\ MessageProcessor.process_webhook settings gateway data w =
             (Ok (JObj [("status", JStr "processed"); ("sent", r)]), snd sent)
          /\ posts (snd sent) =
             (posts w ++ [WhatsApp.payload_of (WhatsApp.to_clean sender) reply])%list).
Proof.
  split.
  - intros Hparse. unfold MessageProcessor.process_webhook.
    cbv [try_exceptM bind lift ret]. rewrite Hparse. reflexivity.
  - intros record sender text Hparse Hfrom Htext reply sent.
    destruct (send_text_message_returns gateway sender reply w) as [r Hr].
    fold sent in Hr. exists r. split; [exact Hr|]. split.
    + unfold MessageProcessor.process_webhook.
      cbv [try_exceptM bind lift ret]. rewrite Hparse.
      assert (Ht : truthy (JObj record) = true).
      { destruct record; [discriminate Hfrom | reflexivity]. }
      rewrite Ht. cbv [negb py_get]. rewrite Hfrom, Htext.
      cbv [py_slice_to]. rewrite generate_response_route.
      fold reply. unfold reply at 1. rewrite route_nonempty. cbv [negb].
      fold reply. fold sent.
      destruct sent as [out w']. cbn [fst snd] in *. rewrite Hr. reflexivity.
    + subst sent. rewrite send_text_message_str. reflexivity.
Qed.

(** A delivery receipt gives no send; the end-to-end event of the
    specification gives one send of the welcome reply to "+5551234". *)
Lemma process_webhook_one_send_witness :
  MessageProcessor.process_webhook Examples.settings Examples.gateway_ok
    Examples.status_event initial_world
  = (Ok (JObj [("status", JStr "no_message")]), initial_world)
  /\ Spec.route Examples.settings "Hello there" = MessageProcessor.greeting_reply
  /\ exists r,
       fst (WhatsApp.send_text_message Examples.gateway_ok (JStr "5551234")
              (Spec.route Examples.settings "Hello there") initial_world) = Ok r
       /\ MessageProcessor.process_webhook Examples.settings Examples.gateway_ok
            Examples.hello_event initial_world
          = (Ok (JObj [("status", JStr "processed"); ("sent", r)]),
             snd (WhatsApp.send_text_message Examples.gateway_ok (JStr "5551234")
                    (Spec.route Examples.settings "Hello there") initial_world))
       /\ posts (snd (WhatsApp.send_text_message Examples.gateway_ok
                        (JStr "5551234")
                        (Spec.route Examples.settings "Hello there")
                        initial_world))
          = [WhatsApp.payload_of "+5551234"
               (Spec.route Examples.settings "Hello there")].
Proof.
  split; [|split].
  - apply (proj1 (process_webhook_one_send Examples.settings Examples.gateway_ok
                    Examples.status_event initial_world)).
    reflexivity.
  - reflexivity.
  - apply (proj2 (process_webhook_one_send Examples.settings Examples.gateway_ok
                    Examples.hello_event initial_world)
             [("message_id", JStr "m1"); ("from", JStr "5551234");
              ("timestamp", JNull); ("type", JStr "text");
              ("text", JStr "Hello there"); ("contact_name", JStr "Unknown")]
             "5551234" "Hello there"); reflexivity.
Defined.

(** On the end-to-end event of the specification, with a gateway that
    accepts the message, the field [sent] of the result is the body the
    gateway returned, not [true]; and for an event whose message has no
    sender, parsing yields a record, yet nothing is sent and the result is
    an error. *)
Lemma process_webhook_sent_is_not_true :
  fst (MessageProcessor.process_webhook Examples.settings Examples.gateway_ok
         Examples.hello_event initial_world)
  = Ok (JObj [("status", JStr "processed"); ("sent", Examples.accepted_body)])
  /\ fst (MessageProcessor.process_webhook Examples.settings Examples.gateway_ok
            Examples.hello_event initial_world)
     <> Ok (JObj [("status", JStr "processed"); ("sent", JBool true)])
  /\ (exists record,
        WhatsApp.parse_webhook_message Examples.anonymous_event = Ok (JObj record)
        /\ record <> [])
  /\ posts (snd (MessageProcessor.process_webhook Examples.settings
                   Examples.gateway_ok Examples.anonymous_event initial_world))
     = []
  /\ py_get (match fst (MessageProcessor.process_webhook Examples.settings
                          Examples.gateway_ok Examples.anonymous_event
                          initial_world)
             with Ok v => v | Raise _ => JNull end) "status" JNull
     = Ok (JStr "error").
Proof.
  split; [reflexivity|].
  split; [vm_compute; intros H; discriminate H|].
  split; [eexists; split; [reflexivity | discriminate]|].
  split; reflexivity.
Qed.

(* ====================================================================== *)
(** * The webhook delivery endpoint (main.py, receive_message) *)
(* ====================================================================== *)

(** Whatever the request body (also one that is not JSON, or not an
    object) and whatever happens while it is processed, [receive_message]
    returns a dict whose [status] is "success" or "error"; the answer is a
    200 when that dict can be rendered. *)
Lemma receive_message_returns_dict
  (settings : Settings) (gateway : Gateway) (message_processor : bool)
  (body : result json) (w : world) :
  let r := fst (Main.receive_message settings gateway message_processor body w) in
  exists fields s,
    r = Ok (ReturnDict (JObj fields))
    /\ lookup "status" fields = Some (JStr s)
    /\ (s = "success" \/ s = "error")
    /\ In s ["success"; "no_message"; "error"]
    /\ (renderable (JObj fields) = true -> http_status (respond r) = 200).
Proof.
  intros r. subst r. unfold Main.receive_message.
  cbv [try_exceptM bind lift ret].
  assert (Herr : forall (m : string) (w' : world),
    let r := fst (@Ok handler_value
                    (ReturnDict (JObj [("status", JStr "error");
                                       ("message", JStr m)])), w') in
    exists fields s,
      r = Ok (ReturnDict (JObj fields))
      /\ lookup "status" fields = Some (JStr s)
      /\ (s = "success" \/ s = "error")
      /\ In s ["success"; "no_message"; "error"]
      /\ (renderable (JObj fields) = true -> http_status (respond r) = 200)).
  { intros m w'. eexists; exists "error".
    split; [reflexivity|]. split; [reflexivity|].
    split; [right; reflexivity|].
    split; [right; right; left; reflexivity | intros _; reflexivity]. }
  destruct body as [data|e]; [|apply Herr].
  destruct (py_get data "entry" (JArr [])) as [entries|e]; [|apply Herr].
  destruct (py_len entries) as [n|e]; [|apply Herr].
  destruct message_processor; [|apply Herr].
  destruct (process_webhook_returns settings gateway data w) as (v & w' & ->).
  eexists; exists "success". split; [reflexivity|]. split; [reflexivity|].
  split; [left; reflexivity|]. split; [left; reflexivity|].
  cbn [fst]. intros Hr. unfold respond. rewrite Hr. reflexivity.
Qed.

(** C7. For the end-to-end event, with a gateway that accepts the reply
    and answers 200 with a body that holds the number 1e999, which
    [response.json()] reads as an infinite float (or with a body that holds
    NaN), [receive_message] returns its "success" dict, but the dict holds
    that float and cannot be rendered: the request is answered by
    [internal_error_handler] with status 500, not with a 2xx. *)
Theorem receive_message_non_finite_body_is_500 :
  fst (Main.receive_message Examples.settings Examples.gateway_infinity true
         (Ok Examples.hello_event) initial_world)
  = Ok (ReturnDict
          (JObj [("status", JStr "success");
                 ("result",
                  JObj [("status", JStr "processed");
                        ("sent", JObj [("balance", JFloat PrimFloat.infinity)])])]))
  /\ respond (fst (Main.receive_message Examples.settings
                     Examples.gateway_infinity true
                     (Ok Examples.hello_event) initial_world))
     = internal_error_handler
  /\ http_status (respond (fst (Main.receive_message Examples.settings
                                  Examples.gateway_nan true
                                  (Ok Examples.hello_event) initial_world)))
     = 500.
Proof.
  split; [vm_compute; reflexivity|].
  split; vm_compute; reflexivity.
Qed.

(* ====================================================================== *)
(** * The admin key check (main.py, verify_admin_api_key) *)
(* ====================================================================== *)

Lemma code_injective (a b : ascii) : code a = code b -> a = b.
Proof.
  unfold code. intros H.
  rewrite <- (ascii_N_embedding a), <- (ascii_N_embedding b), H. reflexivity.
Qed.

(** The accumulator of the comparison loop ends at zero exactly when it
    started at zero and the two strings, of equal length, are equal. *)
Lemma tscmp_loop_zero (lhs : string) :
  forall (rhs : string) (acc : N) (steps : nat),
    String.length lhs = String.length rhs ->
    (fst (tscmp_loop lhs rhs acc steps) = 0%N <-> acc = 0%N /\ lhs = rhs).
Proof.
  induction lhs as [|l lhs IH]; intros [|r rhs] acc steps Hlen;
    try discriminate Hlen; simpl.
  - split; [intros ->; split; reflexivity | intros [-> _]; reflexivity].
  - injection Hlen as Hlen. rewrite (IH rhs _ _ Hlen).
    rewrite N.lor_eq_0_iff, N.lxor_eq_0_iff. split.
    + intros [[-> Hc] ->]. apply code_injective in Hc. subst r.
      split; reflexivity.
    + intros [-> H]. injection H as -> ->. repeat split.
Qed.

(** The loop runs once for every character of the shorter argument,
    whatever the characters are. *)
Lemma tscmp_loop_steps (lhs : string) :
  forall (rhs : string) (acc : N) (steps : nat),
    snd (tscmp_loop lhs rhs acc steps) =
    (steps + Nat.min (String.length lhs) (String.length rhs))%nat.
Proof.
  induction lhs as [|l lhs IH]; intros [|r rhs] acc steps; simpl;
    try (rewrite Nat.add_0_r; reflexivity).
  rewrite IH. lia.
Qed.

Lemma tscmp_decides (a b : string) : fst (tscmp a b) = String.eqb a b.
Proof.
  unfold tscmp.
  destruct (Nat.eqb (String.length a) (String.length b)) eqn:Hlen.
  - apply Nat.eqb_eq in Hlen.
    pose proof (tscmp_loop_zero a b 0%N O Hlen) as H.
    destruct (tscmp_loop a b 0 0) as [acc steps]. cbn [fst] in *.
    destruct (String.eqb_spec a b) as [Heq|Hne].
    + apply N.eqb_eq, H. split; [reflexivity | exact Heq].
    + apply N.eqb_neq. intros Hz. apply Hne, H, Hz.
  - apply Nat.eqb_neq in Hlen.
    pose proof (tscmp_loop_zero b b 1%N O eq_refl) as H.
    destruct (tscmp_loop b b 1 0) as [acc steps]. cbn [fst] in *.
    destruct (String.eqb_spec a b) as [Heq|Hne].
    + subst b. contradiction Hlen. reflexivity.
    + apply N.eqb_neq. intros Hz. apply H in Hz. destruct Hz as [Hz _].
      discriminate Hz.
Qed.

(** The number of iterations depends on the length of the configured
    value only, not on where the candidate first differs from it. *)
Lemma tscmp_steps (a b : string) : snd (tscmp a b) = String.length b.
Proof.
  unfold tscmp.
  destruct (Nat.eqb (String.length a) (String.length b)) eqn:Hlen.
  - apply Nat.eqb_eq in Hlen.
    pose proof (tscmp_loop_steps a b 0%N O) as H.
    destruct (tscmp_loop a b 0 0) as [acc steps]. cbn [snd] in *. lia.
  - pose proof (tscmp_loop_steps b b 1%N O) as H.
    destruct (tscmp_loop b b 1 0) as [acc steps]. cbn [snd] in *. lia.
Qed.

(** No candidate is accepted when it is absent or empty, or when no key is
    configured. *)
Lemma verify_admin_api_key_empty (settings : Settings) (api_key : option string) :
  Main.falsy_str api_key = true \/ is_empty_string (admin_api_key settings) = true ->
  Main.verify_admin_api_key settings api_key = Ok false.
Proof.
  unfold Main.verify_admin_api_key, Main.falsy_str.
  destruct api_key as [key|]; [|reflexivity].
  intros [H|H]; rewrite H; [reflexivity | rewrite orb_true_r; reflexivity].
Qed.

(** On non-empty ASCII values the check is string equality. *)
Lemma verify_admin_api_key_ascii (settings : Settings) (key : string) :
  is_empty_string key = false ->
  is_empty_string (admin_api_key settings) = false ->
  is_ascii_string key = true ->
  is_ascii_string (admin_api_key settings) = true ->
  Main.verify_admin_api_key settings (Some key) =
  Ok (String.eqb key (admin_api_key settings)).
Proof.
  intros Hk Hs Hak Has. unfold Main.verify_admin_api_key, compare_digest.
  rewrite Hk, Hs, Hak, Has. simpl. rewrite tscmp_decides. reflexivity.
Qed.

(** A non-empty candidate that is not ASCII makes the check raise, when a
    key is configured. *)
Lemma verify_admin_api_key_non_ascii (settings : Settings) (key : string) :
  is_empty_string key = false ->
  is_empty_string (admin_api_key settings) = false ->
  is_ascii_string key = false ->
  exists msg, Main.verify_admin_api_key settings (Some key) = Raise (TypeError msg).
Proof.
  intros Hk Hs Ha. unfold Main.verify_admin_api_key, compare_digest.
  rewrite Hk, Hs, Ha. simpl. eexists. reflexivity.
Qed.

(** C4. With an ASCII key configured, the one-character candidate U+00E9
    makes [verify_admin_api_key] raise a [TypeError] instead of returning
    [False]; with a configured key that is not ASCII, the candidate equal
    to it raises as well instead of returning [True].  The same comparison
    in [TwilioSMSService.verify_webhook] is inside a [try] and returns
    [False]. *)
Theorem verify_admin_api_key_raises_on_non_ascii :
  Main.verify_admin_api_key Examples.settings (Some Examples.e_acute)
  = Raise (TypeError "comparing strings with non-ASCII characters is not supported")
  /\ Main.verify_admin_api_key Examples.latin1_settings
       (Some (admin_api_key Examples.latin1_settings))
     = Raise (TypeError "comparing strings with non-ASCII characters is not supported")
  /\ TwilioSMS.verify_webhook Examples.settings
       (JObj [("verify_token", JStr Examples.e_acute)])
     = Ok false.
Proof. repeat split. Qed.

(* ====================================================================== *)
(** * The admin broadcast route (main.py, send_broadcast_alert) *)
(* ====================================================================== *)

(** A caller whose key is refused gets a 401 and nothing is dispatched. *)
Lemma admin_broadcast_refused
  (settings : Settings) (service : option Main.AlertService)
  (x_api_key : option string) (body : result json) (w : world) :
  Main.verify_admin_api_key settings x_api_key = Ok false ->
  Main.admin_broadcast settings service x_api_key body w =
  (Raise (HTTPException 401 "Invalid or missing API key"), w).
Proof.
  intros H. unfold Main.admin_broadcast, Main.admin_auth_required.
  cbv [bind lift rbind]. rewrite H. reflexivity.
Qed.

(** An authenticated request whose body is an object without a message,
    or with a message that is empty, gets a 400 and nothing is
    dispatched. *)
Lemma admin_broadcast_message_required
  (settings : Settings) (service : option Main.AlertService)
  (x_api_key : option string) (fields : list (string * json)) (w : world) :
  Main.verify_admin_api_key settings x_api_key = Ok true ->
  (lookup "message" fields = None
   \/ exists m, lookup "message" fields = Some m /\ truthy m = false) ->
  Main.admin_broadcast settings service x_api_key (Ok (JObj fields)) w =
  (Raise (HTTPException 400 "Message is required"), w).
Proof.
  intros H Hm. unfold Main.admin_broadcast, Main.admin_auth_required,
    Main.send_broadcast_alert.
  cbv [bind lift rbind try_exceptM raise ret py_get]. rewrite H. cbn [negb].
  destruct Hm as [Hm|(m & Hm & Ht)]; rewrite Hm.
  - destruct (lookup "alert_type" fields), (lookup "priority" fields);
      reflexivity.
  - destruct (lookup "alert_type" fields), (lookup "priority" fields);
      rewrite Ht; reflexivity.
Qed.

(** The alert service is called at most once, and only for a caller whose
    key was accepted and a message that is not empty. *)
Lemma admin_broadcast_dispatch
  (settings : Settings) (service : option Main.AlertService)
  (x_api_key : option string) (body : result json) (w : world) :
  let w' := snd (Main.admin_broadcast settings service x_api_key body w) in
  broadcasts w' = broadcasts w
  \/ (Main.verify_admin_api_key settings x_api_key = Ok true
      /\ exists call, broadcasts w' = (broadcasts w ++ [call])%list
                      /\ truthy (bc_message call) = true).
Proof.
  unfold Main.admin_broadcast, Main.admin_auth_required,
    Main.send_broadcast_alert, Main.call_send_broadcast.
  cbv [bind lift rbind try_exceptM raise ret].
  destruct (Main.verify_admin_api_key settings x_api_key) as [[|]|e];
    try (left; reflexivity).
  cbn [negb].
  destruct body as [data|e]; [|left; destruct e; reflexivity].
  destruct (py_get data "message" JNull) as [message|e];
    [|left; destruct e; reflexivity].
  destruct (py_get data "alert_type" (JStr "info")) as [alert_type|e];
    [|left; destruct e; reflexivity].
  destruct (py_get data "priority" (JStr "normal")) as [priority|e];
    [|left; destruct e; reflexivity].
  destruct (truthy message) eqn:Ht; [|left; reflexivity].
  cbn [negb].
  destruct service as [service|]; [|left; reflexivity].
  right. split; [reflexivity|].
  exists {| bc_message := message; bc_alert_type := alert_type;
            bc_priority := priority |}.
  split; [|exact Ht].
  destruct (service _) as [v|e]; [reflexivity | destruct e; reflexivity].
Qed.

(** C8. A caller that presents the one-character key U+00E9 is not
    authenticated, and is answered with status 500, not 401; nothing is
    dispatched.  A caller with the right key and an empty message is
    answered with 400, and one with a wrong ASCII key with 401, in both
    cases before anything is dispatched. *)
Theorem admin_broadcast_non_ascii_key_is_500 :
  respond (fst (Main.admin_broadcast Examples.settings
                  (Some Examples.alert_service) (Some Examples.e_acute)
                  (Ok Examples.broadcast_body) initial_world))
  = internal_error_handler
  /\ snd (Main.admin_broadcast Examples.settings
            (Some Examples.alert_service) (Some Examples.e_acute)
            (Ok Examples.broadcast_body) initial_world)
     = initial_world
  /\ Main.admin_broadcast Examples.settings (Some Examples.alert_service)
       (Some "0123456789abcdef0123456789abcdef")
       (Ok Examples.empty_message_body) initial_world
     = (Raise (HTTPException 400 "Message is required"), initial_world)
  /\ Main.admin_broadcast Examples.settings (Some Examples.alert_service)
       (Some "wrong-key") (Ok Examples.broadcast_body) initial_world
     = (Raise (HTTPException 401 "Invalid or missing API key"), initial_world).
Proof. repeat split. Qed.

(* ====================================================================== *)
(** * The retry utility (send_alert.py, send_alert_with_retry) *)
(* ====================================================================== *)

Section RetryProperties.

Variable server : SendAlert.Server.
Variables (url method : string) (max_retries timeout : Z).
Variables (headers json_data : json).

Let request := Spec.request_of url method timeout headers json_data.

Let attempt_once :=
  SendAlert.attempt_once server url method max_retries timeout headers json_data.

Let retry_loop :=
  SendAlert.retry_loop server url method max_retries timeout headers json_data.

Lemma is_request_request : SendAlert.is_request request = true.
Proof.
  subst request. unfold Spec.request_of.
  destruct (String.eqb method "POST"); reflexivity.
Qed.

Lemma requests_made_app (t u : SendAlert.trace) :
  SendAlert.requests_made (t ++ u)%list =
  (SendAlert.requests_made t + SendAlert.requests_made u)%nat.
Proof.
  unfold SendAlert.requests_made. rewrite filter_app, length_app. reflexivity.
Qed.

Lemma requests_made_request (t : SendAlert.trace) :
  SendAlert.requests_made (t ++ [request])%list = S (SendAlert.requests_made t).
Proof.
  rewrite requests_made_app. unfold SendAlert.requests_made at 2. simpl.
  rewrite is_request_request. simpl. lia.
Qed.

Lemma requests_made_backoff_step (t : SendAlert.trace) (seconds : Z) :
  SendAlert.requests_made (t ++ [request; SendAlert.Sleep seconds])%list =
  S (SendAlert.requests_made t).
Proof.
  change [request; SendAlert.Sleep seconds]
    with ([request] ++ [SendAlert.Sleep seconds])%list.
  rewrite app_assoc, requests_made_app, requests_made_request.
  unfold SendAlert.requests_made at 2. simpl. lia.
Qed.

(** An attempt that gets a response returns it. *)
Lemma attempt_once_response (attempt : Z) (t : SendAlert.trace) (r : Response) :
  server (SendAlert.requests_made t) = Ok r ->
  attempt_once attempt t = (Ok (SendAlert.Returned r), (t ++ [request])%list).
Proof.
  intros H. subst attempt_once request.
  unfold SendAlert.attempt_once, Spec.request_of, SendAlert.send.
  cbv [try_exceptM bind ret].
  destruct (String.eqb method "POST"); rewrite H; reflexivity.
Qed.

(** A failed last attempt raises its exception again, without sleeping. *)
Lemma attempt_once_last (attempt : Z) (t : SendAlert.trace) (e : exn) :
  server (SendAlert.requests_made t) = Raise e ->
  attempt = max_retries - 1 ->
  attempt_once attempt t = (Raise e, (t ++ [request])%list).
Proof.
  intros H Hlast. subst attempt_once request.
  unfold SendAlert.attempt_once, Spec.request_of, SendAlert.send.
  cbv [try_exceptM bind ret raise].
  apply Z.eqb_eq in Hlast.
  destruct (String.eqb method "POST"); rewrite H, Hlast; reflexivity.
Qed.

(** A failed attempt that is not the last one sleeps [2 ^ attempt] seconds
    and lets the loop go on. *)
Lemma attempt_once_backoff (attempt : Z) (t : SendAlert.trace) (e : exn) :
  server (SendAlert.requests_made t) = Raise e ->
  attempt <> max_retries - 1 ->
  attempt_once attempt t =
  (Ok SendAlert.Next, (t ++ [request; SendAlert.Sleep (2 ^ attempt)])%list).
Proof.
  intros H Hmore. subst attempt_once request.
  unfold SendAlert.attempt_once, Spec.request_of, SendAlert.send,
    SendAlert.sleep.
  cbv [try_exceptM bind ret raise].
  apply Z.eqb_neq in Hmore.
  destruct (String.eqb method "POST"); rewrite H, Hmore, <- app_assoc;
    reflexivity.
Qed.

Lemma retry_loop_cons (attempt : Z) (rest : list Z) (t : SendAlert.trace) :
  retry_loop (attempt :: rest) t =
  match attempt_once attempt t with
  | (Ok (SendAlert.Returned r), t') => (Ok (Some r), t')
  | (Ok SendAlert.Next, t') => retry_loop rest t'
  | (Raise e, t') => (Raise e, t')
  end.
Proof.
  subst retry_loop attempt_once. simpl. unfold bind at 1.
  destruct (SendAlert.attempt_once _ _ _ _ _ _ _ _ _) as [[[r|]|e] t'];
    reflexivity.
Qed.

(** The first attempt that gets a response ends the call: after [k] failed
    attempts with their backoff sleeps, attempt [k] returns its response. *)
Lemma retry_loop_first_success (r : Response) (k : nat) :
  forall (a n : nat) (t : SendAlert.trace),
    (k < n)%nat ->
    Z.of_nat a + Z.of_nat k < max_retries ->
    (forall j, (j < k)%nat ->
       exists e, server (SendAlert.requests_made t + j)%nat = Raise e) ->
    server (SendAlert.requests_made t + k)%nat = Ok r ->
    retry_loop (map Z.of_nat (seq a n)) t =
    (Ok (Some r), (t ++ Spec.backoff_from request (Z.of_nat a) k)%list).
Proof.
  induction k as [|k IH]; intros a n t Hn Hmax Hfail Hok;
    destruct n as [|n]; try lia; cbn [seq map]; rewrite retry_loop_cons.
  - rewrite Nat.add_0_r in Hok.
    rewrite (attempt_once_response _ _ _ Hok). reflexivity.
  - destruct (Hfail O ltac:(lia)) as [e He]. rewrite Nat.add_0_r in He.
    rewrite (attempt_once_backoff _ _ _ He) by lia.
    rewrite (IH (S a) n).
    + cbn [Spec.backoff_from]. rewrite <- app_assoc.
      replace (Z.of_nat (S a)) with (Z.of_nat a + 1) by lia. reflexivity.
    + lia.
    + lia.
    + intros j Hj. destruct (Hfail (S j) ltac:(lia)) as [e' He'].
      exists e'. rewrite <- He'. f_equal.
      rewrite requests_made_backoff_step. lia.
    + rewrite <- Hok. f_equal.
      rewrite requests_made_backoff_step. lia.
Qed.

(** When every attempt fails, the exception of the last one leaves the
    call, after [n] sleeps and [n + 1] requests. *)
Lemma retry_loop_all_fail (e : exn) (n : nat) :
  forall (a : nat) (t : SendAlert.trace),
    Z.of_nat a + Z.of_nat n = max_retries - 1 ->
    (forall j, (j < n)%nat ->
       exists e', server (SendAlert.requests_made t + j)%nat = Raise e') ->
    server (SendAlert.requests_made t + n)%nat = Raise e ->
    retry_loop (map Z.of_nat (seq a (S n))) t =
    (Raise e, (t ++ Spec.backoff_from request (Z.of_nat a) n)%list).
Proof.
  induction n as [|n IH]; intros a t Hmax Hfail Hlast;
    cbn [seq map]; rewrite retry_loop_cons.
  - rewrite Nat.add_0_r in Hlast.
    rewrite (attempt_once_last _ _ _ Hlast) by lia. reflexivity.
  - destruct (Hfail O ltac:(lia)) as [e0 He0]. rewrite Nat.add_0_r in He0.
    rewrite (attempt_once_backoff _ _ _ He0) by lia.
    change (map Z.of_nat (seq (S a) (S n)))
      with (map Z.of_nat (seq (S a) (S n))).
    rewrite (IH (S a)).
    + cbn [Spec.backoff_from]. rewrite <- app_assoc.
      replace (Z.of_nat (S a)) with (Z.of_nat a + 1) by lia. reflexivity.
    + lia.
    + intros j Hj. destruct (Hfail (S j) ltac:(lia)) as [e' He'].
      exists e'. rewrite <- He'. f_equal.
      rewrite requests_made_backoff_step. lia.
    + rewrite <- Hlast. f_equal.
      rewrite requests_made_backoff_step. lia.
Qed.

Lemma requests_made_backoff (a : Z) (k : nat) :
  SendAlert.requests_made (Spec.backoff_from request a k) = S k.
Proof.
  revert a. induction k as [|k IH]; intros a.
  - exact (requests_made_request []).
  - cbn [Spec.backoff_from].
    change (request :: SendAlert.Sleep (2 ^ a)
              :: Spec.backoff_from request (a + 1) k)
      with (([] ++ [request; SendAlert.Sleep (2 ^ a)])
              ++ Spec.backoff_from request (a + 1) k)%list.
    rewrite requests_made_app, IH, requests_made_backoff_step. reflexivity.
Qed.

Lemma backoff_requests (a : Z) (k : nat) (e : SendAlert.event) :
  In e (Spec.backoff_from request a k) ->
  SendAlert.is_request e = true -> e = request.
Proof.
  revert a. induction k as [|k IH]; intros a; cbn [Spec.backoff_from In].
  - intros [H|[]] _. symmetry. exact H.
  - intros [H|[H|H]] Hr.
    + symmetry. exact H.
    + subst e. discriminate Hr.
    + exact (IH _ H Hr).
Qed.

End RetryProperties.

(** C5. With its default parameters, [send_alert_with_retry] makes at most
    3 requests, each with the 120-second timeout; when attempts 0..k-1
    fail with an exception and attempt k < 3 gets a response, it sleeps
    2^n seconds after each failed attempt n and returns that response;
    when all three attempts fail it sleeps 1 and 2 seconds between them
    and raises the exception of the third, without another attempt. *)
Theorem send_alert_with_retry_policy
  (server : SendAlert.Server) (url method : string) (headers json_data : json) :
  let run :=
    SendAlert.send_alert_with_retry server url method
      SendAlert.default_max_retries SendAlert.default_timeout
      headers json_data [] in
  let request := Spec.request_of url method 120 headers json_data in
  (SendAlert.requests_made (snd run) <= 3)%nat
  /\ (forall e, In e (snd run) -> SendAlert.is_request e = true -> e = request)
  /\ (forall k r,
        (k < 3)%nat ->
        (forall j, (j < k)%nat -> exists e, server j = Raise e) ->
        server k = Ok r ->
        run = (Ok (Some r), Spec.backoff_from request 0 k))
  /\ (forall e,
        (forall j, (j < 2)%nat -> exists e', server j = Raise e') ->
        server 2%nat = Raise e ->
        run = (Raise e,
               [request; SendAlert.Sleep 1; request; SendAlert.Sleep 2; request])).
Proof.
  intros run request.
  assert (Hsucc : forall k r,
            (k < 3)%nat ->
            (forall j, (j < k)%nat -> exists e, server j = Raise e) ->
            server k = Ok r ->
            run = (Ok (Some r), Spec.backoff_from request 0 k)).
  { intros k r Hk Hfail Hok.
    apply (retry_loop_first_success server url method 3 120 headers json_data
             r k 0 3 []); [exact Hk | lia | exact Hfail | exact Hok]. }
  assert (Hfail : forall e,
            (forall j, (j < 2)%nat -> exists e', server j = Raise e') ->
            server 2%nat = Raise e ->
            run = (Raise e, Spec.backoff_from request 0 2)).
  { intros e Hfail Hlast.
    apply (retry_loop_all_fail server url method 3 120 headers json_data
             e 2 0 []); [lia | exact Hfail | exact Hlast]. }
  assert (Htrace : exists k, (k < 3)%nat
                             /\ snd run = Spec.backoff_from request 0 k).
  { destruct (server 0%nat) as [r0|e0] eqn:H0.
    { exists 0%nat. split; [lia|].
      rewrite (Hsucc 0%nat r0); [reflexivity | lia | intros j Hj; lia | exact H0]. }
    destruct (server 1%nat) as [r1|e1] eqn:H1.
    { exists 1%nat. split; [lia|].
      rewrite (Hsucc 1%nat r1); [reflexivity | lia | | exact H1].
      intros j Hj. assert (j = 0%nat) by lia. subst j. eexists; exact H0. }
    assert (H01 : forall j, (j < 2)%nat -> exists e', server j = Raise e').
    { intros j Hj. destruct j as [|[|j]]; [eexists; exact H0 | eexists; exact H1 | lia]. }
    exists 2%nat. split; [lia|].
    destruct (server 2%nat) as [r2|e2] eqn:H2.
    - rewrite (Hsucc 2%nat r2); [reflexivity | lia | exact H01 | exact H2].
    - rewrite (Hfail e2 H01 eq_refl). reflexivity. }
  split; [|split; [|split]].
  - destruct Htrace as (k & Hk & ->).
    rewrite (requests_made_backoff url method 120 headers json_data). lia.
  - destruct Htrace as (k & Hk & ->). intros e.
    apply (backoff_requests url method 120 headers json_data).
  - exact Hsucc.
  - exact Hfail.
Qed.

(** A server that fails twice and then answers: three requests, sleeps of
    1 and 2 seconds between them, and the third response is returned. *)
Lemma send_alert_with_retry_policy_witness :
  SendAlert.send_alert_with_retry Examples.flaky_server
    "http://localhost:5000/admin/broadcast" "POST"
    SendAlert.default_max_retries SendAlert.default_timeout JNull JNull []
  = (Ok (Some {| status_code := 200; response_json := Ok JNull |}),
     [SendAlert.Post "http://localhost:5000/admin/broadcast" JNull JNull 120;
      SendAlert.Sleep 1;
      SendAlert.Post "http://localhost:5000/admin/broadcast" JNull JNull 120;
      SendAlert.Sleep 2;
      SendAlert.Post "http://localhost:5000/admin/broadcast" JNull JNull 120]).
Proof.
  apply (proj1 (proj2 (proj2 (send_alert_with_retry_policy Examples.flaky_server
           "http://localhost:5000/admin/broadcast" "POST" JNull JNull)))
           2%nat {| status_code := 200; response_json := Ok JNull |}).
  - lia.
  - intros j Hj. destruct j as [|[|j]];
      [eexists; reflexivity | eexists; reflexivity | lia].
  - reflexivity.
Defined.

(* ====================================================================== *)
(** * Further properties: the payload parser *)
(* ====================================================================== *)

(** The parser and its description agree on every payload. *)
Lemma parse_view_eq (data : json) :
  WhatsApp.parse_webhook_message data = Ok (Views.parse_view data).
Proof.
  unfold Views.parse_view, Views.record_view, Views.text_view, Views.name_view,
    Views.profile_name, Views.field, Spec.value_at_path,
    WhatsApp.parse_webhook_message,
    try_except, rbind, py_get, py_index0, truthy, is_empty_string.
  repeat (cbn; try reflexivity; case_step).
Qed.

(** The description yields [None] or a record with the six fields. *)
Lemma parse_view_shape (data : json) :
  Views.parse_view data = JNull
  \/ exists message_id from timestamp type text contact_name,
       Views.parse_view data =
       JObj [("message_id", message_id); ("from", from);
             ("timestamp", timestamp); ("type", type);
             ("text", text); ("contact_name", contact_name)].
Proof.
  unfold Views.parse_view, Views.record_view.
  destruct (Spec.value_at_path data) as [v|]; [|left; reflexivity].
  destruct v as [| | | | | |value]; try (left; reflexivity).
  destruct (lookup "messages" value) as [ms|]; [|left; reflexivity].
  destruct ms as [| | | | |ms|]; try (left; reflexivity).
  destruct ms as [|m ms]; [left; reflexivity|].
  destruct m as [| | | | | |message]; try (left; reflexivity).
  destruct (Views.text_view message), (Views.name_view value);
    try (left; reflexivity).
  right. repeat eexists.
Qed.

(** X1. On every payload, [parse_webhook_message] returns what
    [Views.parse_view] reads off its shape: the six-field record of the
    first message of entry[0].changes[0].value when that message, its
    [text] and the first contact's [profile] are objects or absent, and
    [None] in every other case; it never raises. *)
Theorem parse_webhook_message_characterized (data : json) :
  WhatsApp.parse_webhook_message data = Ok (Views.parse_view data)
  /\ (Views.parse_view data = JNull
      \/ exists message_id from timestamp type text contact_name,
           Views.parse_view data =
           JObj [("message_id", message_id); ("from", from);
                 ("timestamp", timestamp); ("type", type);
                 ("text", text); ("contact_name", contact_name)]).
Proof.
  split; [apply parse_view_eq | apply parse_view_shape].
Qed.

(** X2. Only the first entry, the first change, the first message and the
    first contact are read.  Whatever else a payload holds, the result is
    unchanged when the [entry] array is cut down to its first element and
    the other top-level keys are dropped; likewise for the [changes] array
    and the other keys of the entry, and for the keys of the change other
    than [value]; and, within any value, when the [messages] array or the
    [contacts] array is replaced by its first element alone. *)
Theorem parse_reads_first_elements_only :
  (forall top e es,
     lookup "entry" top = Some (JArr (e :: es)) ->
     WhatsApp.parse_webhook_message (JObj top) =
     WhatsApp.parse_webhook_message (JObj [("entry", JArr [e])]))
  /\ (forall entry c cs,
        lookup "changes" entry = Some (JArr (c :: cs)) ->
        WhatsApp.parse_webhook_message (JObj [("entry", JArr [JObj entry])]) =
        WhatsApp.parse_webhook_message
          (JObj [("entry", JArr [JObj [("changes", JArr [c])]])]))
  /\ (forall change value,
        lookup "value" change = Some value ->
        WhatsApp.parse_webhook_message
          (JObj [("entry", JArr [JObj [("changes", JArr [JObj change])]])]) =
        WhatsApp.parse_webhook_message (Views.delivery value))
  /\ (forall value m ms,
        lookup "messages" value = Some (JArr (m :: ms)) ->
        WhatsApp.parse_webhook_message (Views.delivery (JObj value)) =
        WhatsApp.parse_webhook_message
          (Views.delivery (JObj (("messages", JArr [m]) :: value))))
  /\ (forall value c cs,
        lookup "contacts" value = Some (JArr (c :: cs)) ->
        WhatsApp.parse_webhook_message (Views.delivery (JObj value)) =
        WhatsApp.parse_webhook_message
          (Views.delivery (JObj (("contacts", JArr [c]) :: value)))).
Proof.
  split; [|split; [|split; [|split]]].
  - intros top e es H. rewrite !parse_view_eq. f_equal.
    unfold Views.parse_view, Spec.value_at_path. rewrite H. cbn [lookup String.eqb].
    change (lookup "entry" [("entry", JArr [e])]) with (Some (JArr [e])).
    destruct e; reflexivity.
  - intros entry c cs H. rewrite !parse_view_eq. f_equal.
    unfold Views.parse_view, Spec.value_at_path.
    change (lookup "entry" [("entry", JArr [JObj entry])])
      with (Some (JArr [JObj entry])).
    change (lookup "entry" [("entry", JArr [JObj [("changes", JArr [c])]])])
      with (Some (JArr [JObj [("changes", JArr [c])]])).
    cbv iota beta. rewrite H.
    change (lookup "changes" [("changes", JArr [c])]) with (Some (JArr [c])).
    destruct c; reflexivity.
  - intros change value H. rewrite !parse_view_eq. f_equal.
    unfold Views.parse_view.
    change (Spec.value_at_path (Views.delivery value)) with (Some value).
    change (Spec.value_at_path
              (JObj [("entry", JArr [JObj [("changes", JArr [JObj change])]])]))
      with (lookup "value" change).
    rewrite H. reflexivity.
  - intros value m ms H. rewrite !parse_view_eq. f_equal.
    unfold Views.parse_view.
    change (Spec.value_at_path (Views.delivery (JObj value)))
      with (Some (JObj value)).
    change (Spec.value_at_path
              (Views.delivery (JObj (("messages", JArr [m]) :: value))))
      with (Some (JObj (("messages", JArr [m]) :: value))).
    cbv iota beta. rewrite H.
    change (lookup "messages" (("messages", JArr [m]) :: value))
      with (Some (JArr [m])).
    destruct m; reflexivity.
  - intros value c cs H. rewrite !parse_view_eq. f_equal.
    unfold Views.parse_view.
    change (Spec.value_at_path (Views.delivery (JObj value)))
      with (Some (JObj value)).
    change (Spec.value_at_path
              (Views.delivery (JObj (("contacts", JArr [c]) :: value))))
      with (Some (JObj (("contacts", JArr [c]) :: value))).
    cbv iota beta.
    change (lookup "messages" (("contacts", JArr [c]) :: value))
      with (lookup "messages" value).
    assert (Hn : forall message,
              Views.record_view (("contacts", JArr [c]) :: value) message
              = Views.record_view value message).
    { intros message. unfold Views.record_view, Views.name_view.
      change (lookup "contacts" (("contacts", JArr [c]) :: value))
        with (Some (JArr [c])).
      rewrite H. reflexivity. }
    destruct (lookup "messages" value) as [[| | | | |[|[| | | | | |message] rest]|]|];
      try reflexivity.
    rewrite Hn. reflexivity.
Qed.

(** A payload with a second entry for another message parses to the
    record of the first message, as the payload with the first entry
    alone does; and a value with two messages and two contacts gives the
    record of the first message with the name of the first contact. *)
Lemma parse_reads_first_elements_only_witness :
  WhatsApp.parse_webhook_message Examples.batched_event
  = WhatsApp.parse_webhook_message Examples.hello_event
  /\ WhatsApp.parse_webhook_message Examples.hello_event
     = Ok (JObj [("message_id", JStr "m1"); ("from", JStr "5551234");
                 ("timestamp", JNull); ("type", JStr "text");
                 ("text", JStr "Hello there");
                 ("contact_name", JStr "Unknown")])
  /\ WhatsApp.parse_webhook_message
       (Views.delivery (JObj Examples.two_messages_value))
     = WhatsApp.parse_webhook_message
         (Views.delivery
            (JObj (("messages",
                    JArr [JObj [("id", JStr "m1"); ("from", JStr "5551234");
                                ("text", JObj [("body", JStr "Hello there")])]])
                   :: Examples.two_messages_value)))
  /\ WhatsApp.parse_webhook_message
       (Views.delivery (JObj Examples.two_messages_value))
     = Ok (JObj [("message_id", JStr "m1"); ("from", JStr "5551234");
                 ("timestamp", JNull); ("type", JNull);
                 ("text", JStr "Hello there");
                 ("contact_name", JStr "Asha")]).
Proof.
  split; [|split; [|split]].
  - apply (proj1 parse_reads_first_elements_only) with
      (es := [JObj [("changes", JArr [JObj [("value",
                JObj [("messages", JArr [JObj [("id", JStr "m9");
                                               ("from", JStr "5559999");
                                               ("type", JStr "text");
                                               ("text", JObj [("body", JStr "help")])]])])]])]]).
    reflexivity.
  - reflexivity.
  - apply (proj1 (proj2 (proj2 (proj2 parse_reads_first_elements_only)))) with
      (ms := [JObj [("id", JStr "m2"); ("from", JStr "5559999");
                    ("text", JObj [("body", JStr "help")])]]).
    reflexivity.
  - reflexivity.
Defined.

(** X3. How the [text] of the first message is read, for a delivery with
    one message and no contacts: without [text] the record has the empty
    text; with a [text] object it has that object's [body], whatever JSON
    value that is; with a [text] that is not an object ([null], a string, a
    number) the message is dropped and the result is [None]. *)
Theorem parse_text_field (message : list (string * json)) :
  let data := Views.delivery (JObj [("messages", JArr [JObj message])]) in
  let record text :=
    JObj [("message_id", Views.field "id" message);
          ("from", Views.field "from" message);
          ("timestamp", Views.field "timestamp" message);
          ("type", Views.field "type" message);
          ("text", text);
          ("contact_name", JStr "Unknown")] in
  (lookup "text" message = None ->
   WhatsApp.parse_webhook_message data = Ok (record (JStr "")))
  /\ (forall text body,
        lookup "text" message = Some (JObj text) ->
        lookup "body" text = Some body ->
        WhatsApp.parse_webhook_message data = Ok (record body))
  /\ (forall text,
        lookup "text" message = Some (JObj text) ->
        lookup "body" text = None ->
        WhatsApp.parse_webhook_message data = Ok (record (JStr "")))
  /\ (forall t,
        lookup "text" message = Some t ->
        (forall text, t <> JObj text) ->
        WhatsApp.parse_webhook_message data = Ok JNull).
Proof.
  intros data record. subst data record. cbv beta.
  rewrite parse_view_eq.
  change (Views.parse_view
            (Views.delivery (JObj [("messages", JArr [JObj message])])))
    with (Views.record_view [("messages", JArr [JObj message])] message).
  unfold Views.record_view, Views.text_view.
  change (Views.name_view [("messages", JArr [JObj message])])
    with (Some (JStr "Unknown")).
  split; [|split; [|split]].
  - intros ->. reflexivity.
  - intros text body -> ->. reflexivity.
  - intros text -> ->. reflexivity.
  - intros t -> Hn. destruct t; try reflexivity.
    exfalso. exact (Hn _ eq_refl).
Qed.

(** A media message without text, a text message, and a message whose
    text is [null]. *)
Lemma parse_text_field_witness :
  WhatsApp.parse_webhook_message
    (Views.delivery (JObj [("messages",
       JArr [JObj [("id", JStr "m2"); ("type", JStr "image")]])]))
  = Ok (JObj [("message_id", JStr "m2"); ("from", JNull); ("timestamp", JNull);
              ("type", JStr "image"); ("text", JStr "");
              ("contact_name", JStr "Unknown")])
  /\ WhatsApp.parse_webhook_message
       (Views.delivery (JObj [("messages",
          JArr [JObj [("id", JStr "m3"); ("text", JNull)]])]))
     = Ok JNull.
Proof.
  split.
  - apply (proj1 (parse_text_field [("id", JStr "m2"); ("type", JStr "image")])).
    reflexivity.
  - apply (proj2 (proj2 (proj2 (parse_text_field
             [("id", JStr "m3"); ("text", JNull)]))) JNull).
    + reflexivity.
    + intros text H. discriminate H.
Defined.

(* ====================================================================== *)
(** * Further properties: the reply generator *)
(* ====================================================================== *)

(** A reply is returned for every message value, and it is not empty. *)
Lemma generate_response_returns
  (settings : Settings) (message from_number : json) :
  exists reply,
    MessageProcessor.generate_response settings message from_number = Ok reply
    /\ is_empty_string reply = false
    /\ ((forall s, message <> JStr s) -> reply = MessageProcessor.error_reply).
Proof.
  destruct message as [| | | |s| |];
    try (exists MessageProcessor.error_reply;
         split; [reflexivity | split; [reflexivity | intros _; reflexivity]]).
  exists (Spec.route settings s).
  split; [apply generate_response_route|].
  split; [apply route_nonempty|].
  intros H. exfalso. exact (H s eq_refl).
Qed.

(** X4. [generate_response] returns a reply for every message value and
    the reply is never empty; for a message that is not a string it is the
    apology text, whatever the settings. *)
Theorem generate_response_never_empty
  (settings : Settings) (message from_number : json) :
  exists reply,
    MessageProcessor.generate_response settings message from_number = Ok reply
    /\ is_empty_string reply = false
    /\ ((forall s, message <> JStr s) -> reply = MessageProcessor.error_reply).
Proof. apply generate_response_returns. Qed.

(** A message whose text is a list. *)
Lemma generate_response_never_empty_witness :
  MessageProcessor.generate_response Examples.settings (JArr [JStr "hi"]) JNull
  = Ok MessageProcessor.error_reply.
Proof.
  destruct (generate_response_never_empty Examples.settings (JArr [JStr "hi"]) JNull)
    as (reply & -> & _ & H).
  f_equal. apply H. intros s Hs. discriminate Hs.
Defined.

Lemma space_differs (k c : ascii) :
  is_space k = false -> is_space c = true -> Ascii.eqb k c = false.
Proof.
  intros Hk Hc. destruct (Ascii.eqb_spec k c) as [->|]; [congruence | reflexivity].
Qed.

Lemma startswith_cons (c : ascii) (s : string) (k : ascii) (p : string) :
  startswith (String c s) (String k p) = Ascii.eqb k c && startswith s p.
Proof. reflexivity. Qed.

Lemma no_space_cons (k : ascii) (p : string) :
  Views.no_space (String k p) = true ->
  is_space k = false /\ Views.no_space p = true.
Proof.
  cbn [Views.no_space]. intros H. apply andb_true_iff in H.
  destruct H as [H1 H2]. apply negb_true_iff in H1. split; assumption.
Qed.

(** Leading white space cannot take part in an occurrence of a word
    without white space. *)
Lemma str_in_lstrip (k : ascii) (p s : string) :
  Views.no_space (String k p) = true ->
  str_in (String k p) (lstrip s) = str_in (String k p) s.
Proof.
  intros Hk. destruct (no_space_cons _ _ Hk) as [Hk0 _].
  induction s as [|c s IH]; [reflexivity|].
  cbn [lstrip]. destruct (is_space c) eqn:Hc; [|reflexivity].
  rewrite IH, (str_in_unfold _ (String c s)), startswith_cons,
    (space_differs _ _ Hk0 Hc).
  reflexivity.
Qed.

Lemma rstrip_cons (c : ascii) (s : string) :
  rstrip (String c s) =
  match rstrip s with
  | EmptyString => if is_space c then EmptyString else String c EmptyString
  | r => String c r
  end.
Proof. reflexivity. Qed.

Lemma startswith_empty (p : string) :
  startswith EmptyString p = is_empty_string p.
Proof. destruct p; reflexivity. Qed.

(** A prefix without white space is a prefix of the right-trimmed string
    exactly when it is one of the string. *)
Lemma startswith_rstrip (s : string) :
  forall p, Views.no_space p = true ->
            startswith (rstrip s) p = startswith s p.
Proof.
  induction s as [|c s IH]; intros p Hp; [reflexivity|].
  destruct p as [|k p]; [reflexivity|].
  destruct (no_space_cons _ _ Hp) as [Hk Hp'].
  rewrite rstrip_cons, (startswith_cons c s). rewrite <- (IH p Hp').
  destruct (rstrip s) as [|d r] eqn:Hr.
  - destruct (is_space c) eqn:Hc.
    + rewrite (space_differs _ _ Hk Hc). reflexivity.
    + reflexivity.
  - reflexivity.
Qed.

Lemma str_in_rstrip (k : ascii) (p s : string) :
  Views.no_space (String k p) = true ->
  str_in (String k p) (rstrip s) = str_in (String k p) s.
Proof.
  intros Hk. induction s as [|c s IH]; [reflexivity|].
  rewrite (str_in_unfold _ (String c s)), <- IH,
    <- (startswith_rstrip (String c s) _ Hk).
  rewrite rstrip_cons.
  destruct (rstrip s) as [|d r] eqn:Hr.
  - destruct (is_space c); rewrite str_in_unfold; reflexivity.
  - rewrite str_in_unfold. reflexivity.
Qed.

Lemma any_in_strip (keywords : list string) (text : string) :
  forallb Views.keyword_ok keywords = true ->
  MessageProcessor.any_in keywords (strip text) =
  MessageProcessor.any_in keywords text.
Proof.
  unfold MessageProcessor.any_in.
  induction keywords as [|k ks IH]; intros H; [reflexivity|].
  cbn [forallb] in H. apply andb_true_iff in H. destruct H as [Hk Hks].
  cbn [existsb]. rewrite (IH Hks). f_equal.
  unfold Views.keyword_ok in Hk. apply andb_true_iff in Hk. destruct Hk as [Hne Hns].
  destruct k as [|k0 p]; [discriminate Hne|].
  unfold strip. rewrite (str_in_rstrip _ _ _ Hns). apply (str_in_lstrip _ _ _ Hns).
Qed.

Lemma is_space_lower_char (c : ascii) : is_space (lower_char c) = is_space c.
Proof. destruct c as [[] [] [] [] [] [] [] []]; reflexivity. Qed.

Lemma lower_app (a b : string) : lower (a ++ b) = lower a ++ lower b.
Proof. induction a as [|c a IH]; [reflexivity|]. simpl. rewrite IH. reflexivity. Qed.

Lemma all_space_lower (s : string) :
  Views.all_space (lower s) = Views.all_space s.
Proof.
  induction s as [|c s IH]; [reflexivity|].
  cbn [lower Views.all_space]. rewrite is_space_lower_char, IH. reflexivity.
Qed.

Lemma lstrip_all_space (s : string) :
  Views.all_space s = true -> lstrip s = EmptyString.
Proof.
  induction s as [|c s IH]; [reflexivity|].
  cbn [Views.all_space lstrip]. intros H. apply andb_true_iff in H.
  destruct H as [-> H]. exact (IH H).
Qed.

Lemma rstrip_all_space (s : string) :
  Views.all_space s = true -> rstrip s = EmptyString.
Proof.
  induction s as [|c s IH]; [reflexivity|].
  cbn [Views.all_space]. intros H. apply andb_true_iff in H.
  destruct H as [Hc H]. rewrite rstrip_cons, (IH H), Hc. reflexivity.
Qed.

Lemma rstrip_app_space (s post : string) :
  Views.all_space post = true -> rstrip (s ++ post) = rstrip s.
Proof.
  intros H. induction s as [|c s IH].
  - apply (rstrip_all_space _ H).
  - change (String c s ++ post) with (String c (s ++ post)).
    rewrite !rstrip_cons, IH. reflexivity.
Qed.

Lemma strip_app_space (pre s post : string) :
  Views.all_space pre = true -> Views.all_space post = true ->
  strip (pre ++ s ++ post) = strip s.
Proof.
  intros Hpre Hpost. unfold strip.
  induction pre as [|c pre IH].
  - change (EmptyString ++ s ++ post) with (s ++ post). clear Hpre.
    induction s as [|d s IHs].
    + change (EmptyString ++ post) with post.
      rewrite (lstrip_all_space _ Hpost). reflexivity.
    + change (String d s ++ post) with (String d (s ++ post)).
      cbn [lstrip]. destruct (is_space d); [exact IHs|].
      apply (rstrip_app_space (String d s) post Hpost).
  - cbn [Views.all_space] in Hpre. apply andb_true_iff in Hpre.
    destruct Hpre as [Hc Hpre].
    change (String c pre ++ s ++ post) with (String c (pre ++ s ++ post)).
    cbn [lstrip]. rewrite Hc. exact (IH Hpre).
Qed.

(** X5. Trimming has no effect on the reply: no keyword contains white
    space, so the reply to a text is the first match on the lower-cased
    text itself; and white space put before or after a text never changes
    its reply. *)
Theorem generate_response_ignores_strip
  (settings : Settings) (text : string) (from_number : json) :
  MessageProcessor.generate_response settings (JStr text) from_number =
    Ok (Spec.first_match (Spec.categories settings) (lower text))
  /\ (forall before after,
        Views.all_space before = true ->
        Views.all_space after = true ->
        MessageProcessor.generate_response settings
          (JStr (before ++ text ++ after)) from_number =
        MessageProcessor.generate_response settings (JStr text) from_number).
Proof.
  split.
  - rewrite generate_response_route. f_equal.
    unfold Spec.route, Spec.categories, Spec.first_match.
    fold (MessageProcessor.any_in Spec.greeting_keywords (strip (lower text))).
    fold (MessageProcessor.any_in Spec.emergency_keywords (strip (lower text))).
    fold (MessageProcessor.any_in Spec.symptom_keywords (strip (lower text))).
    fold (MessageProcessor.any_in Spec.medicine_keywords (strip (lower text))).
    fold (MessageProcessor.any_in Spec.facility_keywords (strip (lower text))).
    fold (MessageProcessor.any_in Spec.greeting_keywords (lower text)).
    fold (MessageProcessor.any_in Spec.emergency_keywords (lower text)).
    fold (MessageProcessor.any_in Spec.symptom_keywords (lower text)).
    fold (MessageProcessor.any_in Spec.medicine_keywords (lower text)).
    fold (MessageProcessor.any_in Spec.facility_keywords (lower text)).
    rewrite !any_in_strip by reflexivity. reflexivity.
  - intros before after Hb Ha. rewrite !generate_response_route.
    unfold Spec.route. rewrite !lower_app, strip_app_space.
    + reflexivity.
    + rewrite all_space_lower. exact Hb.
    + rewrite all_space_lower. exact Ha.
Qed.

(** The same text with and without surrounding blanks. *)
Lemma generate_response_ignores_strip_witness :
  MessageProcessor.generate_response Examples.settings
    (JStr ("   " ++ "I have a FEVER" ++ "  ")) JNull
  = MessageProcessor.generate_response Examples.settings
      (JStr "I have a FEVER") JNull.
Proof.
  apply (proj2 (generate_response_ignores_strip Examples.settings
                  "I have a FEVER" JNull) "   " "  "); reflexivity.
Defined.

(* ====================================================================== *)
(** * Further properties: the gateway client and the orchestrator *)
(* ====================================================================== *)

(** X6. A recipient that is not a string ([None] when the message has no
    [from]) makes [send_text_message] raise an [AttributeError]: the
    normalization is outside its [try].  Nothing is posted, but the HTTP
    client has been created. *)
Theorem send_text_message_non_str_recipient
  (gateway : Gateway) (to : json) (text : string) (w : world) :
  (forall s, to <> JStr s) ->
  exists msg,
    WhatsApp.send_text_message gateway to text w =
    (Raise (AttributeError msg),
     {| client := true; posts := posts w; broadcasts := broadcasts w |}).
Proof.
  intros H. unfold WhatsApp.send_text_message, WhatsApp.ensure_client.
  cbv [bind lift].
  assert (Hw : (if client w then w
                else {| client := true; posts := posts w;
                        broadcasts := broadcasts w |})
               = {| client := true; posts := posts w;
                    broadcasts := broadcasts w |}).
  { destruct w as [[|] ps bs]; reflexivity. }
  rewrite Hw.
  destruct to as [| | | |s| |]; try (eexists; reflexivity).
  exfalso. exact (H s eq_refl).
Qed.

Lemma send_text_message_non_str_recipient_witness :
  exists msg,
    WhatsApp.send_text_message Examples.gateway_ok JNull "hi" initial_world =
    (Raise (AttributeError msg),
     {| client := true; posts := []; broadcasts := [] |}).
Proof.
  apply (send_text_message_non_str_recipient Examples.gateway_ok JNull "hi"
           initial_world).
  intros s H. discriminate H.
Defined.

(** X7. When the body of the gateway's answer cannot be decoded, the
    message has been posted and [send_text_message] returns the failure
    value with the decoding error, whatever the status code: also for a
    200. *)
Theorem send_text_message_undecodable_body
  (gateway : Gateway) (to text : string) (w : world)
  (response : Response) (e : exn) :
  gateway (List.length (posts w))
    (WhatsApp.payload_of (WhatsApp.to_clean to) text) = Ok response ->
  response_json response = Raise e ->
  WhatsApp.send_text_message gateway (JStr to) text w =
  (Ok (Spec.failure_value (JStr (str_of_exn e))),
   {| client := true;
      posts := posts w ++ [WhatsApp.payload_of (WhatsApp.to_clean to) text];
      broadcasts := broadcasts w |}).
Proof.
  intros Hg He. rewrite send_text_message_str. cbv zeta. rewrite Hg, He.
  reflexivity.
Qed.

Lemma send_text_message_undecodable_body_witness :
  fst (WhatsApp.send_text_message
         (fun _ _ => Ok {| status_code := 200;
                           response_json := Raise (JSONDecodeError "Expecting value") |})
         (JStr "5551234") "hi" initial_world)
  = Ok (Spec.failure_value (JStr "Expecting value")).
Proof.
  rewrite (send_text_message_undecodable_body
             (fun _ _ => Ok {| status_code := 200;
                               response_json := Raise (JSONDecodeError "Expecting value") |})
             "5551234" "hi" initial_world
             {| status_code := 200;
                response_json := Raise (JSONDecodeError "Expecting value") |}
             (JSONDecodeError "Expecting value") eq_refl eq_refl).
  reflexivity.
Defined.

(** What a send does to the world, for any recipient: one more post, or
    none when it raises. *)
Lemma send_text_message_world
  (gateway : Gateway) (to : json) (text : string) (w : world) :
  broadcasts (snd (WhatsApp.send_text_message gateway to text w)) = broadcasts w
  /\ ((exists r payload,
         fst (WhatsApp.send_text_message gateway to text w) = Ok r
         /\ posts (snd (WhatsApp.send_text_message gateway to text w))
            = (posts w ++ [payload])%list)
      \/ (exists e,
            fst (WhatsApp.send_text_message gateway to text w) = Raise e
            /\ posts (snd (WhatsApp.send_text_message gateway to text w))
               = posts w)).
Proof.
  destruct to as [| | | |s| |];
    try (split; [|right]; unfold WhatsApp.send_text_message,
           WhatsApp.ensure_client; cbv [bind lift]; cbn;
         [destruct (client w); reflexivity
         | eexists; split; [reflexivity | destruct (client w); reflexivity]]).
  rewrite send_text_message_str. cbv zeta. split; [reflexivity|]. left.
  destruct (send_text_message_returns gateway s text w) as [r Hr].
  rewrite send_text_message_str in Hr. cbv zeta in Hr.
  exists r. eexists. split; [exact Hr | reflexivity].
Qed.

(** The three ways in which [process_webhook] ends. *)
Lemma process_webhook_cases
  (settings : Settings) (gateway : Gateway) (data : json) (w : world) :
  exists v w',
    MessageProcessor.process_webhook settings gateway data w = (Ok v, w')
    /\ broadcasts w' = broadcasts w
    /\ ((v = JObj [("status", JStr "no_message")] /\ w' = w)
        \/ (exists r payload,
              v = JObj [("status", JStr "processed"); ("sent", r)]
              /\ posts w' = (posts w ++ [payload])%list)
        \/ (exists msg,
              v = JObj [("status", JStr "error"); ("error", JStr msg)]
              /\ posts w' = posts w)).
Proof.
  unfold MessageProcessor.process_webhook.
  cbv [try_exceptM bind lift ret]. rewrite parse_view_eq.
  destruct (parse_view_shape data) as [->|(mid & from & ts & ty & text & name & ->)].
  - eexists; eexists. split; [reflexivity|]. split; [reflexivity|].
    left. split; reflexivity.
  - cbn [truthy negb].
    change (py_get _ "from" JNull) with (Ok from).
    change (py_get _ "text" (JStr "")) with (Ok text).
    cbv iota beta.
    destruct (py_slice_to 50 text) as [sliced|e].
    + destruct (generate_response_returns settings text from)
        as (reply & -> & Hne & _).
      rewrite Hne. cbn [negb].
      destruct (send_text_message_world gateway from reply w) as [Hb Hp].
      destruct (WhatsApp.send_text_message gateway from reply w) as [[r|e] w'].
      * cbn [fst snd] in *. eexists; eexists. split; [reflexivity|].
        split; [exact Hb|]. right. left.
        destruct Hp as [(r' & payload & Hr & Hp)|(e & He & _)];
          [|discriminate He].
        exists r, payload. split; [reflexivity | exact Hp].
      * cbn [fst snd] in *. eexists; eexists. split; [reflexivity|].
        split; [exact Hb|]. right. right.
        destruct Hp as [(r' & payload & Hr & _)|(e' & He & Hp)];
          [discriminate Hr|].
        eexists. split; [reflexivity | exact Hp].
    + eexists; eexists. split; [reflexivity|]. split; [reflexivity|].
      right. right. eexists. split; reflexivity.
Qed.

(** X8. For every payload and every gateway, [process_webhook] returns
    one of three results and posts at most once: "no_message" with the
    world untouched, "processed" with exactly one post, or "error" with no
    post at all.  So a result "processed" means that a reply was posted,
    and after an "error" nothing has been sent. *)
Theorem process_webhook_outcomes
  (settings : Settings) (gateway : Gateway) (data : json) (w : world) :
  exists v w',
    MessageProcessor.process_webhook settings gateway data w = (Ok v, w')
    /\ broadcasts w' = broadcasts w
    /\ ((v = JObj [("status", JStr "no_message")] /\ w' = w)
        \/ (exists r payload,
              v = JObj [("status", JStr "processed"); ("sent", r)]
              /\ posts w' = (posts w ++ [payload])%list)
        \/ (exists msg,
              v = JObj [("status", JStr "error"); ("error", JStr msg)]
              /\ posts w' = posts w)).
Proof. apply process_webhook_cases. Qed.

Lemma string_split_at (k : nat) (s : string) :
  s = string_firstn k s ++ Masking.string_skipn k s.
Proof.
  revert s. induction k as [|k IH]; intros s.
  - destruct s; reflexivity.
  - destruct s as [|c s]; [reflexivity|].
    cbn [string_firstn Masking.string_skipn].
    change (String c (string_firstn k s) ++ Masking.string_skipn k s)
      with (String c (string_firstn k s ++ Masking.string_skipn k s)).
    rewrite <- IH. reflexivity.
Qed.

Lemma string_skipn_length (k : nat) (s : string) :
  String.length (Masking.string_skipn k s) = (String.length s - k)%nat.
Proof.
  revert s. induction k as [|k IH]; intros s.
  - cbn. lia.
  - destruct s as [|c s]; [reflexivity|]. cbn [Masking.string_skipn String.length].
    rewrite IH. lia.
Qed.

Lemma string_firstn_length (k : nat) (s : string) :
  String.length (string_firstn k s) = Nat.min k (String.length s).
Proof.
  revert s. induction k as [|k IH]; intros s; [reflexivity|].
  destruct s as [|c s]; [reflexivity|]. cbn [string_firstn String.length].
  rewrite IH. reflexivity.
Qed.

(** X9. The recipient in the log line of [send_text_message] shows at
    most its last four characters: an identifier of at most four
    characters is logged as "****", a longer one as "***" followed by its
    last four characters, its other characters being left out. *)
Theorem masked_shows_last_four (to_clean : string) :
  ((String.length to_clean <= 4)%nat -> Masking.masked to_clean = "****")
  /\ ((4 < String.length to_clean)%nat ->
      exists hidden shown,
        to_clean = hidden ++ shown
        /\ String.length shown = 4%nat
        /\ String.length hidden = (String.length to_clean - 4)%nat
        /\ Masking.masked to_clean = "***" ++ shown)
  /\ (String.length (Masking.masked to_clean) <= 7)%nat.
Proof.
  unfold Masking.masked, Masking.str_last.
  destruct (4 <? String.length to_clean)%nat eqn:H.
  - apply Nat.ltb_lt in H. split; [intros; lia|]. split.
    + intros _.
      exists (string_firstn (String.length to_clean - 4) to_clean),
             (Masking.string_skipn (String.length to_clean - 4) to_clean).
      split; [apply string_split_at|].
      split; [rewrite string_skipn_length; lia|].
      split; [rewrite string_firstn_length; lia | reflexivity].
    + cbn [String.append String.length]. rewrite string_skipn_length. lia.
  - apply Nat.ltb_ge in H. split; [reflexivity|].
    split; [intros; lia | cbn; lia].
Qed.

(** A normalized number of eleven digits, and one of three. *)
Lemma masked_shows_last_four_witness :
  (exists hidden shown,
     WhatsApp.to_clean "91 98765-43210" = hidden ++ shown
     /\ String.length shown = 4%nat
     /\ String.length hidden
        = (String.length (WhatsApp.to_clean "91 98765-43210") - 4)%nat
     /\ Masking.masked (WhatsApp.to_clean "91 98765-43210") = "***" ++ shown)
  /\ Masking.masked (WhatsApp.to_clean "112") = "****".
Proof.
  split.
  - apply (proj1 (proj2 (masked_shows_last_four
                           (WhatsApp.to_clean "91 98765-43210")))).
    cbn. lia.
  - apply (proj1 (masked_shows_last_four (WhatsApp.to_clean "112"))).
    cbn. lia.
Defined.

(* ====================================================================== *)
(** * Further properties: the webhook delivery endpoint *)
(* ====================================================================== *)

(** X10. [receive_message] reports "success" exactly when the message
    processor is set and the body is a JSON object whose [entry] (an empty
    list when missing) has a length; the [result] is then what
    [process_webhook] returned, also when that is an error or
    "no_message".  In every case at most one message is posted. *)
Theorem receive_message_success_iff
  (settings : Settings) (gateway : Gateway) (message_processor : bool)
  (body : result json) (w : world) :
  let out := Main.receive_message settings gateway message_processor body w in
  let ready :=
    message_processor = true
    /\ exists top n,
         body = Ok (JObj top)
         /\ py_len (match lookup "entry" top with
                    | Some v => v
                    | None => JArr []
                    end) = Ok n in
  ((exists result,
      fst out = Ok (ReturnDict (JObj [("status", JStr "success");
                                      ("result", result)])))
   <-> ready)
  /\ (ready ->
      forall data, body = Ok data ->
      exists result,
        MessageProcessor.process_webhook settings gateway data w
        = (Ok result, snd out)
        /\ fst out = Ok (ReturnDict (JObj [("status", JStr "success");
                                           ("result", result)])))
  /\ (posts (snd out) = posts w
      \/ exists payload, posts (snd out) = (posts w ++ [payload])%list).
Proof.
  intros out ready. subst out ready. unfold Main.receive_message.
  cbv [try_exceptM bind lift ret].
  destruct body as [data|e].
  2:{ split; [|split].
      - split; [intros [r H]; discriminate H
               | intros [_ (? & ? & H & _)]; discriminate H].
      - intros [_ (? & ? & H & _)]; discriminate H.
      - left; reflexivity. }
  destruct data as [| | | | | |top]; cbn [py_get fst snd];
    try (split; [|split];
         [ split; [intros [r H]; discriminate H
                  | intros [_ (? & ? & H & _)]; discriminate H]
         | intros [_ (? & ? & H & _)]; discriminate H
         | left; reflexivity ]).
  replace (match lookup "entry" top with
           | Some v => Ok v
           | None => Ok (JArr [])
           end)
    with (@Ok json (match lookup "entry" top with
                    | Some v => v
                    | None => JArr []
                    end))
    by (destruct (lookup "entry" top); reflexivity).
  destruct (py_len _) as [n|e] eqn:Hlen.
  2:{ split; [|split].
      - split; [intros [r H]; discriminate H|].
        intros [_ (top' & n & H & Hn)]. injection H as <-. congruence.
      - intros [_ (top' & n & H & Hn)]. injection H as <-. congruence.
      - left; reflexivity. }
  destruct message_processor.
  2:{ split; [|split].
      - split; [intros [r H]; discriminate H | intros [H _]; discriminate H].
      - intros [H _]; discriminate H.
      - left; reflexivity. }
  destruct (process_webhook_cases settings gateway (JObj top) w)
    as (v & w' & Hrun & _ & Hcases).
  rewrite Hrun. cbn [fst snd].
  split; [|split].
  - split; [|intros _; eexists; reflexivity].
    intros _. split; [reflexivity|]. exists top, n. split; [reflexivity | exact Hlen].
  - intros _ data Hdata. injection Hdata as <-.
    exists v. split; [exact Hrun | reflexivity].
  - destruct Hcases as [[_ ->]|[(r & payload & _ & Hp)|(msg & _ & Hp)]].
    + left; reflexivity.
    + right. exists payload. exact Hp.
    + left. exact Hp.
Qed.

(** The end-to-end event, and an array instead of an object. *)
Lemma receive_message_success_iff_witness :
  (exists result,
     fst (Main.receive_message Examples.settings Examples.gateway_ok true
            (Ok Examples.hello_event) initial_world)
     = Ok (ReturnDict (JObj [("status", JStr "success"); ("result", result)])))
  /\ fst (Main.receive_message Examples.settings Examples.gateway_ok true
            (Ok (JArr [])) initial_world)
     = Ok (ReturnDict (JObj [("status", JStr "error");
                             ("message",
                              JStr "'list' object has no attribute 'get'")])).
Proof.
  split.
  - apply (proj1 (receive_message_success_iff Examples.settings
                    Examples.gateway_ok true (Ok Examples.hello_event)
                    initial_world)).
    split; [reflexivity|]. eexists; exists 1. split; reflexivity.
  - reflexivity.
Defined.

(* ====================================================================== *)
(** * Further properties: the admin routes *)
(* ====================================================================== *)

(** The handler over the recorded calls is the handler of the broadcast
    route: the two give the same outcome. *)
Lemma send_broadcast_alert_agree
  (service : option AdminRoutes.AlertService) (body : result json)
  (w : world) (log : AdminRoutes.calls) :
  fst (Main.send_broadcast_alert
         (option_map
            (fun (f : AdminRoutes.AlertService) (c : BroadcastCall) =>
               f (AdminRoutes.SendBroadcast (bc_message c) (bc_alert_type c)
                    (bc_priority c)))
            service) body w)
  = fst (AdminRoutes.send_broadcast_alert service body log).
Proof.
  unfold Main.send_broadcast_alert, AdminRoutes.send_broadcast_alert,
    Main.call_send_broadcast, AdminRoutes.call, AdminRoutes.reraise_as_500.
  cbv [try_exceptM bind lift ret raise].
  destruct body as [data|e]; [|destruct e; reflexivity].
  destruct (py_get data "message" JNull) as [message|e];
    [|destruct e; reflexivity].
  destruct (py_get data "alert_type" (JStr "info")) as [alert_type|e];
    [|destruct e; reflexivity].
  destruct (py_get data "priority" (JStr "normal")) as [priority|e];
    [|destruct e; reflexivity].
  destruct (truthy message); cbn [negb]; [|reflexivity].
  destruct service as [f|]; cbn [option_map]; [|reflexivity].
  cbn [bc_message bc_alert_type bc_priority].
  destruct (f _) as [r|e]; [reflexivity | destruct e; reflexivity].
Qed.

(** X11. Once the caller is authenticated, the broadcast handler either
    returns its success dict after exactly one call of the alert service,
    or raises an [HTTPException]; no other exception leaves it.  The
    service is called with the message and with "info" and "normal" for a
    missing [alert_type] and [priority]; an [HTTPException] raised by the
    service is passed on unchanged, any other exception becomes a 500
    whose detail is its text. *)
Theorem send_broadcast_alert_outcomes
  (admin_alert_service : option Main.AlertService) (body : result json)
  (w : world) :
  let out := Main.send_broadcast_alert admin_alert_service body w in
  ((exists service call result,
      admin_alert_service = Some service
      /\ service call = Ok result
      /\ truthy (bc_message call) = true
      /\ out = (Ok (ReturnDict
                      (JObj [("status", JStr "success");
                             ("message", JStr "Broadcast alert sent successfully");
                             ("result", result)])),
                {| client := client w; posts := posts w;
                   broadcasts := broadcasts w ++ [call] |}))
   \/ (exists status detail, fst out = Raise (HTTPException status detail)))
  /\ (forall fields service,
        body = Ok (JObj fields) ->
        admin_alert_service = Some service ->
        truthy (Views.field "message" fields) = true ->
        let call :=
          {| bc_message := Views.field "message" fields;
             bc_alert_type := match lookup "alert_type" fields with
                              | Some v => v
                              | None => JStr "info"
                              end;
             bc_priority := match lookup "priority" fields with
                            | Some v => v
                            | None => JStr "normal"
                            end |} in
        broadcasts (snd out) = (broadcasts w ++ [call])%list
        /\ (forall status detail,
              service call = Raise (HTTPException status detail) ->
              fst out = Raise (HTTPException status detail))
        /\ (forall e,
              service call = Raise e ->
              (forall status detail, e <> HTTPException status detail) ->
              fst out = Raise (HTTPException 500 (str_of_exn e)))).
Proof.
  intros out. subst out. unfold Main.send_broadcast_alert, Main.call_send_broadcast.
  cbv [try_exceptM bind lift ret raise]. split.
  - destruct body as [data|e];
      [|right; destruct e; eexists; eexists; reflexivity].
    destruct (py_get data "message" JNull) as [message|e];
      [|right; destruct e; eexists; eexists; reflexivity].
    destruct (py_get data "alert_type" (JStr "info")) as [alert_type|e];
      [|right; destruct e; eexists; eexists; reflexivity].
    destruct (py_get data "priority" (JStr "normal")) as [priority|e];
      [|right; destruct e; eexists; eexists; reflexivity].
    destruct (truthy message) eqn:Ht; cbn [negb];
      [|right; eexists; eexists; reflexivity].
    destruct admin_alert_service as [service|];
      [|right; eexists; eexists; reflexivity].
    destruct (service _) as [r|e] eqn:Hs;
      [|right; destruct e; eexists; eexists; reflexivity].
    left. eexists; eexists; eexists.
    split; [reflexivity|]. split; [exact Hs|]. split; [exact Ht | reflexivity].
  - intros fields service -> -> Ht. unfold Views.field in *.
    cbn [py_get].
    destruct (lookup "message" fields) as [message|];
      [|discriminate Ht].
    destruct (lookup "alert_type" fields) as [alert_type|];
      destruct (lookup "priority" fields) as [priority|];
      rewrite Ht; cbn [negb];
      (split; [destruct (service _) as [r|e]; [|destruct e]; reflexivity|]);
      (split;
       [ intros status detail ->; reflexivity
       | intros e -> Hn; destruct e; try reflexivity;
         exfalso; exact (Hn _ _ eq_refl) ]).
Qed.

(** A request without [alert_type] and [priority], to a service that
    fails with a [KeyError]. *)
Lemma send_broadcast_alert_outcomes_witness :
  fst (Main.send_broadcast_alert (Some (fun _ => Raise (KeyError "users")))
         (Ok (JObj [("message", JStr "Boil water")])) initial_world)
  = Raise (HTTPException 500 "users")
  /\ broadcasts (snd (Main.send_broadcast_alert
                        (Some (fun _ => Raise (KeyError "users")))
                        (Ok (JObj [("message", JStr "Boil water")]))
                        initial_world))
     = [{| bc_message := JStr "Boil water"; bc_alert_type := JStr "info";
           bc_priority := JStr "normal" |}].
Proof.
  destruct (proj2 (send_broadcast_alert_outcomes
                     (Some (fun _ => Raise (KeyError "users")))
                     (Ok (JObj [("message", JStr "Boil water")])) initial_world)
              [("message", JStr "Boil water")]
              (fun _ => Raise (KeyError "users")) eq_refl eq_refl eq_refl)
    as (Hlog & _ & Herr).
  split.
  - apply (Herr (KeyError "users") eq_refl). intros status detail H. discriminate H.
  - exact Hlog.
Defined.

(** X12. Every admin route behind [admin_auth_required] is gated in the
    same way: a key that the check refuses gives 401; on the three POST
    routes an object body whose message is missing or empty gives 400; and
    the alert service is called at most once per request, only after the
    check succeeded, only by the route of that call and only with a
    message that is not empty.  The stats route never calls it. *)
Theorem admin_routes_gate
  (settings : Settings) (service : option AdminRoutes.AlertService)
  (r : AdminRoutes.route) (x_api_key : option string) (body : result json)
  (log : AdminRoutes.calls) :
  let out := AdminRoutes.serve settings service r x_api_key body log in
  (Main.verify_admin_api_key settings x_api_key = Ok false ->
   out = (Raise (HTTPException 401 "Invalid or missing API key"), log))
  /\ (Main.verify_admin_api_key settings x_api_key = Ok true ->
      r <> AdminRoutes.Stats ->
      forall fields,
        body = Ok (JObj fields) ->
        truthy (Views.field "message" fields) = false ->
        out = (Raise (HTTPException 400 "Message is required"), log))
  /\ (snd out = log
      \/ exists c,
           snd out = (log ++ [c])%list
           /\ Main.verify_admin_api_key settings x_api_key = Ok true
           /\ Views.call_route c = r
           /\ truthy (Views.call_message c) = true).
Proof.
  intros out. subst out.
  unfold AdminRoutes.serve, Main.admin_auth_required.
  cbv [bind lift rbind].
  split; [|split].
  - intros ->. reflexivity.
  - intros -> Hr fields -> Ht. cbn [negb]. unfold Views.field in Ht.
    destruct r; try (exfalso; apply Hr; reflexivity);
      unfold AdminRoutes.send_broadcast_alert, AdminRoutes.send_emergency_alert,
        AdminRoutes.send_health_tip;
      cbv [try_exceptM bind lift ret raise py_get];
      destruct (lookup "message" fields) as [m|];
      repeat match goal with
        | |- context [lookup ?k fields] => destruct (lookup k fields)
        end;
      try rewrite Ht; reflexivity.
  - destruct (Main.verify_admin_api_key settings x_api_key) as [[|]|e];
      cbn [negb]; try (left; reflexivity).
    destruct r;
      unfold AdminRoutes.send_broadcast_alert, AdminRoutes.send_emergency_alert,
        AdminRoutes.send_health_tip, AdminRoutes.api_stats, AdminRoutes.call,
        AdminRoutes.reraise_as_500;
      cbv [try_exceptM bind lift ret raise];
      try (left; reflexivity);
      (destruct body as [data|e]; [|left; destruct e; reflexivity]);
      (destruct (py_get data "message" JNull) as [message|e];
       [|left; destruct e; reflexivity]);
      repeat match goal with
        | |- context [py_get data ?k ?d] =>
            destruct (py_get data k d) as [?|e];
            [|left; destruct e; reflexivity]
        end;
      (destruct (truthy message) eqn:Ht; cbn [negb]; [|left; reflexivity]);
      (destruct service as [f|]; [|left; reflexivity]);
      right; eexists;
      (split; [destruct (f _) as [?|e]; [|destruct e]; reflexivity|]);
      (split; [reflexivity|]); (split; [reflexivity | exact Ht]).
Qed.

(** A wrong key on the emergency route, and the right key with an empty
    message on the health-tip route. *)
Lemma admin_routes_gate_witness :
  AdminRoutes.serve Examples.settings None AdminRoutes.Emergency
    (Some "wrong-key") (Ok Examples.broadcast_body) []
  = (Raise (HTTPException 401 "Invalid or missing API key"), [])
  /\ AdminRoutes.serve Examples.settings None AdminRoutes.HealthTip
       (Some "0123456789abcdef0123456789abcdef")
       (Ok Examples.empty_message_body) []
     = (Raise (HTTPException 400 "Message is required"), []).
Proof.
  split.
  - apply (proj1 (admin_routes_gate Examples.settings None AdminRoutes.Emergency
                    (Some "wrong-key") (Ok Examples.broadcast_body) [])).
    reflexivity.
  - apply (proj1 (proj2 (admin_routes_gate Examples.settings None
                           AdminRoutes.HealthTip
                           (Some "0123456789abcdef0123456789abcdef")
                           (Ok Examples.empty_message_body) []))
             eq_refl) with (fields := [("message", JStr ""); ("alert_type", JStr "info")]).
    + intros H. discriminate H.
    + reflexivity.
    + reflexivity.
Defined.

(* ====================================================================== *)
(** * Further properties: the Twilio webhook check *)
(* ====================================================================== *)

Lemma is_empty_string_iff (s : string) :
  is_empty_string s = true <-> s = EmptyString.
Proof. destruct s; split; (reflexivity || discriminate). Qed.

(** X13. [TwilioSMSService.verify_webhook] never raises, and accepts
    exactly the payloads that are objects whose [verify_token] is a string
    equal to the configured token, that token being non-empty and ASCII.
    With a configured token that is not ASCII nothing is accepted. *)
Theorem twilio_verify_webhook_iff (settings : Settings) (data : json) :
  (exists b, TwilioSMS.verify_webhook settings data = Ok b)
  /\ (TwilioSMS.verify_webhook settings data = Ok true
      <-> exists fields,
            data = JObj fields
            /\ lookup "verify_token" fields
               = Some (JStr (twilio_verify_token settings))
            /\ twilio_verify_token settings <> EmptyString
            /\ is_ascii_string (twilio_verify_token settings) = true).
Proof.
  split.
  { unfold TwilioSMS.verify_webhook.
    destruct (try_except_returns
                (verify_token <- py_get data "verify_token" JNull ;;
                 (if negb (truthy verify_token)
                     || is_empty_string (twilio_verify_token settings)
                  then Ok false
                  else
                    equal <- py_compare_digest verify_token
                               (twilio_verify_token settings) ;;
                    (if equal then Ok true else Ok false)))%result
                (fun _ => false)) as [b Hb].
    exists b. exact Hb. }
  unfold TwilioSMS.verify_webhook, try_except, rbind.
  destruct data as [| | | | | |fields];
    try (split; [discriminate | intros (? & H & _); discriminate H]).
  cbn [py_get].
  destruct (lookup "verify_token" fields) as [token|] eqn:Hl.
  2:{ split; [discriminate | intros (? & H & H' & _)].
      injection H as <-. congruence. }
  destruct (is_empty_string (twilio_verify_token settings)) eqn:He.
  { rewrite orb_true_r. split; [discriminate|].
    intros (? & _ & _ & Hne & _). apply is_empty_string_iff in He. contradiction. }
  rewrite orb_false_r.
  destruct token as [| | | |s| |];
    try (split;
         [ cbn; repeat match goal with
                  | |- context [if ?b then _ else _] => destruct b
                  end; discriminate
         | intros (? & H & H' & _); injection H as <-; congruence ]).
  cbn [truthy py_compare_digest]. unfold compare_digest.
  destruct (is_empty_string s) eqn:Hs; cbn [negb].
  { split; [discriminate|]. intros (? & H & H' & _). injection H as <-.
    rewrite Hl in H'. injection H' as ->. congruence. }
  destruct (is_ascii_string s) eqn:Has; cbn [andb].
  2:{ split; [discriminate|]. intros (? & H & H' & _ & Ha). injection H as <-.
      rewrite Hl in H'. injection H' as ->. congruence. }
  destruct (is_ascii_string (twilio_verify_token settings)) eqn:Hae.
  2:{ split; [discriminate|]. intros (? & _ & _ & _ & Ha). discriminate Ha. }
  rewrite tscmp_decides.
  destruct (String.eqb_spec s (twilio_verify_token settings)) as [->|Hne].
  - split; [|reflexivity]. intros _. exists fields.
    split; [reflexivity|]. split; [exact Hl|]. split; [|reflexivity].
    intros H. apply is_empty_string_iff in H. congruence.
  - split; [discriminate|]. intros (? & H & H' & _). injection H as <-.
    rewrite Hl in H'. injection H' as H'. contradiction.
Qed.

(* ====================================================================== *)
(** * Further properties: the production check of the settings *)
(* ====================================================================== *)

Lemma too_short_false (s : string) :
  Config.too_short s = false <-> (32 <= String.length s)%nat.
Proof.
  unfold Config.too_short. rewrite orb_false_iff, Z.ltb_ge.
  split.
  - intros [_ H]. lia.
  - intros H. split; [destruct s; [cbn in H; lia | reflexivity] | lia].
Qed.

(** When the production check passes, and its first complaint. *)
Lemma validate_security_spec
  (settings : Settings) (more : Config.SecurityFields) :
  (Config._validate_security settings more = Config.Passed
   <-> Config.debug more = true
       \/ ((32 <= String.length (Config.secret_key more))%nat
           /\ (32 <= String.length (admin_api_key settings))%nat
           /\ Config.whatsapp_token more <> EmptyString
           /\ verify_token settings <> EmptyString))
  /\ (Config.debug more = false ->
      (String.length (Config.secret_key more) < 32)%nat ->
      Config._validate_security settings more =
      Config.ValueError "Security Error: SECRET_KEY must be set to a secure random value (≥32 chars) in production!").
Proof.
  unfold Config._validate_security. split.
  - destruct (Config.debug more); cbn [negb].
    { split; [intros _; left; reflexivity | reflexivity]. }
    destruct (Config.too_short (Config.secret_key more)) eqn:H1.
    { split; [discriminate|]. intros [H|(H & _)]; [discriminate|].
      apply too_short_false in H. congruence. }
    destruct (Config.too_short (admin_api_key settings)) eqn:H2.
    { split; [discriminate|]. intros [H|(_ & H & _)]; [discriminate|].
      apply too_short_false in H. congruence. }
    destruct (is_empty_string (Config.whatsapp_token more)) eqn:H3.
    { split; [discriminate|]. intros [H|(_ & _ & H & _)]; [discriminate|].
      apply is_empty_string_iff in H3. contradiction. }
    destruct (is_empty_string (verify_token settings)) eqn:H4.
    { split; [discriminate|]. intros [H|(_ & _ & _ & H)]; [discriminate|].
      apply is_empty_string_iff in H4. contradiction. }
    split; [|reflexivity]. intros _. right.
    apply too_short_false in H1, H2.
    repeat split; try assumption; intros H; apply is_empty_string_iff in H;
      congruence.
  - intros -> Hlen. cbn [negb].
    destruct (Config.too_short (Config.secret_key more)) eqn:H1; [reflexivity|].
    apply too_short_false in H1. lia.
Qed.

(** X14. [_validate_security] passes exactly when [debug] is set, or the
    secret key and the admin key have at least 32 characters and the
    WhatsApp token and the verify token are not empty; otherwise it raises
    a [ValueError], and the secret key is the first thing it complains
    about. *)
Theorem validate_security_passes_iff
  (settings : Settings) (more : Config.SecurityFields) :
  (Config._validate_security settings more = Config.Passed
   <-> Config.debug more = true
       \/ ((32 <= String.length (Config.secret_key more))%nat
           /\ (32 <= String.length (admin_api_key settings))%nat
           /\ Config.whatsapp_token more <> EmptyString
           /\ verify_token settings <> EmptyString))
  /\ (Config.debug more = false ->
      (String.length (Config.secret_key more) < 32)%nat ->
      Config._validate_security settings more =
      Config.ValueError "Security Error: SECRET_KEY must be set to a secure random value (≥32 chars) in production!").
Proof. apply validate_security_spec. Qed.

(** Production settings with every value set, and with a short secret. *)
Lemma validate_security_passes_iff_witness :
  Config._validate_security Examples.settings
    {| Config.debug := false;
       Config.secret_key := "fedcba9876543210fedcba9876543210";
       Config.whatsapp_token := "EAAG-token" |}
  = Config.Passed
  /\ Config._validate_security Examples.settings
       {| Config.debug := false;
          Config.secret_key := "changeme";
          Config.whatsapp_token := "EAAG-token" |}
     = Config.ValueError "Security Error: SECRET_KEY must be set to a secure random value (≥32 chars) in production!".
Proof.
  split.
  - apply (proj1 (validate_security_passes_iff Examples.settings _)).
    right. cbn. repeat split; try lia; discriminate.
  - apply (proj2 (validate_security_passes_iff Examples.settings _)).
    + reflexivity.
    + cbn. lia.
Defined.

(** X15. The handshake accepts an empty token exactly when no verify
    token is configured.  Settings that passed the production check have
    one, so with them a handshake whose token is missing or empty is
    answered with 403, whatever the mode and the challenge. *)
Theorem handshake_empty_token
  (settings : Settings) (mode challenge : option string) :
  ((exists v, Main.verify_webhook settings mode (Some "") challenge = Ok v)
   <-> mode = Some "subscribe" /\ verify_token settings = EmptyString)
  /\ (forall more token,
        Config._validate_security settings more = Config.Passed ->
        Config.debug more = false ->
        Main.falsy_str token = true ->
        http_status (respond (Main.verify_webhook settings mode token challenge))
        = 403).
Proof.
  split.
  - unfold Main.verify_webhook.
    destruct (Main.opt_str_eqb mode "subscribe") eqn:Hm; cbn [andb].
    + apply opt_str_eqb_eq in Hm. cbn [Main.opt_str_eqb].
      destruct (String.eqb_spec "" (verify_token settings)) as [He|He].
      * split; [intros _; split; [exact Hm | symmetry; exact He]
               | intros _; eexists; reflexivity].
      * split; [intros [v H]; discriminate H | intros [_ H]; congruence].
    + split; [intros [v H]; discriminate H|].
      intros [H _]. apply opt_str_eqb_eq in H. congruence.
  - intros more token Hv Hd Ht.
    apply (proj1 (validate_security_spec settings more)) in Hv.
    destruct Hv as [Hv|(_ & _ & _ & Hv)]; [congruence|].
    unfold Main.verify_webhook.
    replace (Main.opt_str_eqb token (verify_token settings)) with false.
    + rewrite andb_false_r. reflexivity.
    + symmetry. destruct token as [t|]; [|reflexivity].
      cbn [Main.falsy_str] in Ht. apply is_empty_string_iff in Ht. subst t.
      cbn [Main.opt_str_eqb]. apply String.eqb_neq. congruence.
Qed.

(** Production settings: a handshake without token, in any mode. *)
Lemma handshake_empty_token_witness :
  http_status (respond (Main.verify_webhook Examples.settings
                          (Some "subscribe") None (Some "abc123")))
  = 403.
Proof.
  apply (proj2 (handshake_empty_token Examples.settings (Some "subscribe")
                  (Some "abc123"))
           {| Config.debug := false;
              Config.secret_key := "fedcba9876543210fedcba9876543210";
              Config.whatsapp_token := "EAAG-token" |} None);
    reflexivity.
Defined.

(* ====================================================================== *)
(** * Further properties: the retry utility for any number of attempts *)
(* ====================================================================== *)

(** Among the next [n] reactions of a server either one is a response,
    and then there is a first one, or all are exceptions. *)
Lemma first_response_or_none (server : SendAlert.Server) (offset n : nat) :
  (exists k r,
     (k < n)%nat /\ server (offset + k)%nat = Ok r
     /\ forall j, (j < k)%nat -> exists e, server (offset + j)%nat = Raise e)
  \/ (forall j, (j < n)%nat -> exists e, server (offset + j)%nat = Raise e).
Proof.
  induction n as [|n [(k & r & Hk & Hr & Hf)|Hall]].
  - right. intros j Hj. lia.
  - left. exists k, r. split; [lia | split; assumption].
  - destruct (server (offset + n)%nat) as [r|e] eqn:Hn.
    + left. exists n, r. split; [lia | split; assumption].
    + right. intros j Hj. destruct (Nat.eq_dec j n) as [->|Hne].
      * exists e. exact Hn.
      * apply Hall. lia.
Qed.

Lemma total_sleep_app (t u : SendAlert.trace) :
  Views.total_sleep (t ++ u)%list = Views.total_sleep t + Views.total_sleep u.
Proof.
  induction t as [|e t IH]; [reflexivity|].
  destruct e; cbn [app Views.total_sleep]; rewrite IH; lia.
Qed.

Lemma total_sleep_backoff
  (url method : string) (timeout : Z) (headers json_data : json) (k : nat) :
  forall a, 0 <= a ->
    Views.total_sleep
      (Spec.backoff_from (Spec.request_of url method timeout headers json_data)
         a k)
    = 2 ^ (a + Z.of_nat k) - 2 ^ a.
Proof.
  induction k as [|k IH]; intros a Ha; cbn [Spec.backoff_from].
  - replace (a + Z.of_nat 0) with a by lia.
    unfold Spec.request_of. destruct (String.eqb method "POST"); cbn; lia.
  - assert (Hs : forall rest,
              Views.total_sleep
                (Spec.request_of url method timeout headers json_data :: rest)
              = Views.total_sleep rest).
    { intros rest. unfold Spec.request_of.
      destruct (String.eqb method "POST"); reflexivity. }
    rewrite Hs. cbn [Views.total_sleep]. rewrite IH by lia.
    replace (a + 1 + Z.of_nat k) with (a + Z.of_nat (S k)) by lia.
    replace (2 ^ (a + 1)) with (2 * 2 ^ a) by (rewrite Z.pow_add_r by lia; lia).
    lia.
Qed.

(** A call with at least one attempt allowed, started after any trace:
    it ends at the first attempt that gets a response, or at the last
    attempt when none does. *)
Lemma retry_general
  (server : SendAlert.Server) (url method : string) (max_retries timeout : Z)
  (headers json_data : json) (t : SendAlert.trace) :
  1 <= max_retries ->
  exists k,
    (k < Z.to_nat max_retries)%nat
    /\ (forall j, (j < k)%nat ->
          exists e, server (SendAlert.requests_made t + j)%nat = Raise e)
    /\ ((exists r,
           server (SendAlert.requests_made t + k)%nat = Ok r
           /\ SendAlert.send_alert_with_retry server url method max_retries
                timeout headers json_data t
              = (Ok (Some r),
                 (t ++ Spec.backoff_from
                         (Spec.request_of url method timeout headers json_data)
                         0 k)%list))
        \/ (exists e,
              server (SendAlert.requests_made t + k)%nat = Raise e
              /\ S k = Z.to_nat max_retries
              /\ SendAlert.send_alert_with_retry server url method max_retries
                   timeout headers json_data t
                 = (Raise e,
                    (t ++ Spec.backoff_from
                            (Spec.request_of url method timeout headers json_data)
                            0 k)%list))).
Proof.
  intros Hmax. unfold SendAlert.send_alert_with_retry, SendAlert.range.
  destruct (first_response_or_none server (SendAlert.requests_made t)
              (Z.to_nat max_retries)) as [(k & r & Hk & Hr & Hf)|Hall].
  - exists k. split; [exact Hk|]. split; [exact Hf|]. left. exists r.
    split; [exact Hr|].
    apply (retry_loop_first_success server url method max_retries timeout
             headers json_data r k 0 (Z.to_nat max_retries) t);
      [exact Hk | lia | exact Hf | exact Hr].
  - destruct (Z.to_nat max_retries) as [|n] eqn:Hn; [lia|].
    destruct (Hall n ltac:(lia)) as [e He].
    exists n. split; [lia|]. split; [intros j Hj; apply Hall; lia|].
    right. exists e. split; [exact He|]. split; [reflexivity|].
    apply (retry_loop_all_fail server url method max_retries timeout
             headers json_data e n 0 t);
      [lia | intros j Hj; apply Hall; lia | exact He].
Qed.

(** X16. For any number of attempts [max_retries >= 1] and any server, a
    call of [send_alert_with_retry] makes k+1 requests for some
    k < max_retries, where k is the first attempt that does not fail, or
    the last attempt; it sleeps 2^0, ..., 2^(k-1) seconds between them,
    2^k - 1 seconds in all, so never more than 2^(max_retries-1) - 1; it
    returns the response of attempt k or raises its exception, and never
    returns [None]. *)
Theorem send_alert_with_retry_general
  (server : SendAlert.Server) (url method : string) (max_retries timeout : Z)
  (headers json_data : json) :
  1 <= max_retries ->
  let run := SendAlert.send_alert_with_retry server url method max_retries
               timeout headers json_data [] in
  let request := Spec.request_of url method timeout headers json_data in
  exists k,
    (k < Z.to_nat max_retries)%nat
    /\ snd run = Spec.backoff_from request 0 k
    /\ SendAlert.requests_made (snd run) = S k
    /\ Views.total_sleep (snd run) = 2 ^ Z.of_nat k - 1
    /\ Views.total_sleep (snd run) <= 2 ^ (max_retries - 1) - 1
    /\ (forall j, (j < k)%nat -> exists e, server j = Raise e)
    /\ ((exists r, server k = Ok r /\ fst run = Ok (Some r))
        \/ (exists e, server k = Raise e /\ fst run = Raise e
                      /\ Z.of_nat k = max_retries - 1)).
Proof.
  intros Hmax run request.
  destruct (retry_general server url method max_retries timeout headers
              json_data [] Hmax) as (k & Hk & Hf & Hend).
  assert (Htrace : snd run = Spec.backoff_from request 0 k).
  { destruct Hend as [(r & _ & H)|(e & _ & _ & H)]; subst run; rewrite H;
      reflexivity. }
  exists k. split; [exact Hk|]. split; [exact Htrace|].
  rewrite Htrace. subst request.
  split; [apply requests_made_backoff|].
  rewrite total_sleep_backoff by lia. rewrite Z.pow_0_r, Z.add_0_l.
  split; [reflexivity|].
  split.
  { assert (2 ^ Z.of_nat k <= 2 ^ (max_retries - 1))
      by (apply Z.pow_le_mono_r; lia).
    lia. }
  split; [exact Hf|].
  destruct Hend as [(r & Hr & H)|(e & He & Hlast & H)].
  - left. exists r. split; [exact Hr|]. subst run. rewrite H. reflexivity.
  - right. exists e. split; [exact He|]. split; [subst run; rewrite H; reflexivity|].
    lia.
Qed.

(** Five attempts allowed, against the server that fails twice. *)
Lemma send_alert_with_retry_general_witness :
  exists k,
    (k < 5)%nat
    /\ SendAlert.requests_made
         (snd (SendAlert.send_alert_with_retry Examples.flaky_server
                 "http://localhost:5000/admin/stats" "GET" 5 30 JNull JNull []))
       = S k
    /\ Views.total_sleep
         (snd (SendAlert.send_alert_with_retry Examples.flaky_server
                 "http://localhost:5000/admin/stats" "GET" 5 30 JNull JNull []))
       = 2 ^ Z.of_nat k - 1.
Proof.
  destruct (send_alert_with_retry_general Examples.flaky_server
              "http://localhost:5000/admin/stats" "GET" 5 30 JNull JNull
              ltac:(lia))
    as (k & Hk & _ & Hreq & Hsleep & _).
  exists k. split; [exact Hk|]. split; [exact Hreq | exact Hsleep].
Defined.

Lemma send_alert_with_retry_no_attempt_aux
  (server : SendAlert.Server) (url method : string) (max_retries timeout : Z)
  (headers json_data : json) (t : SendAlert.trace) :
  max_retries <= 0 ->
  snd (SendAlert.send_alert_with_retry server url method max_retries timeout
         headers json_data t) = t.
Proof.
  intros H. unfold SendAlert.send_alert_with_retry, SendAlert.range.
  replace (Z.to_nat max_retries) with O by lia. reflexivity.
Qed.

(** X17. With [max_retries <= 0] the loop body never runs:
    [send_alert_with_retry] makes no request, does not sleep, raises
    nothing and returns [None]. *)
Theorem send_alert_with_retry_no_attempt
  (server : SendAlert.Server) (url method : string) (max_retries timeout : Z)
  (headers json_data : json) (t : SendAlert.trace) :
  max_retries <= 0 ->
  SendAlert.send_alert_with_retry server url method max_retries timeout
    headers json_data t
  = (Ok None, t).
Proof.
  intros H. unfold SendAlert.send_alert_with_retry, SendAlert.range.
  replace (Z.to_nat max_retries) with O by lia. reflexivity.
Qed.

Lemma send_alert_with_retry_no_attempt_witness :
  SendAlert.send_alert_with_retry Examples.flaky_server "u" "POST" 0 120
    JNull JNull []
  = (Ok None, []).
Proof.
  apply send_alert_with_retry_no_attempt. lia.
Defined.

(** X18. The method is compared with "POST" exactly: for any other
    method, "post" and "PUT" included, every request of the call is a GET
    that carries the headers but not the JSON data. *)
Theorem send_alert_with_retry_other_method_is_get
  (server : SendAlert.Server) (url method : string) (max_retries timeout : Z)
  (headers json_data : json) :
  method <> "POST" ->
  forall e,
    In e (snd (SendAlert.send_alert_with_retry server url method max_retries
                 timeout headers json_data [])) ->
    e = SendAlert.Get url headers timeout \/ exists seconds, e = SendAlert.Sleep seconds.
Proof.
  intros Hm e He.
  assert (Hreq : Spec.request_of url method timeout headers json_data
                 = SendAlert.Get url headers timeout).
  { unfold Spec.request_of. apply String.eqb_neq in Hm. rewrite Hm. reflexivity. }
  destruct (Z_le_gt_dec max_retries 0) as [Hle|Hgt].
  - rewrite send_alert_with_retry_no_attempt_aux in He by exact Hle.
    destruct He.
  - destruct (retry_general server url method max_retries timeout headers
                json_data [] ltac:(lia)) as (k & _ & _ & Hend).
    assert (Htrace :
              snd (SendAlert.send_alert_with_retry server url method max_retries
                     timeout headers json_data [])
              = Spec.backoff_from
                  (Spec.request_of url method timeout headers json_data) 0 k).
    { destruct Hend as [(r & _ & H)|(e' & _ & _ & H)]; rewrite H; reflexivity. }
    rewrite Htrace in He. clear Htrace Hend.
    destruct (SendAlert.is_request e) eqn:Hr.
    + left. rewrite <- Hreq.
      exact (backoff_requests url method timeout headers json_data 0 k e He Hr).
    + right. destruct e; try discriminate Hr. eexists. reflexivity.
Qed.

Lemma send_alert_with_retry_other_method_is_get_witness :
  nth 2 (snd (SendAlert.send_alert_with_retry Examples.flaky_server
                "http://localhost:5000/admin/broadcast" "post" 3 120
                JNull Examples.broadcast_body []))
    (SendAlert.Sleep 0)
  = SendAlert.Get "http://localhost:5000/admin/broadcast" JNull 120
  \/ exists seconds,
       nth 2 (snd (SendAlert.send_alert_with_retry Examples.flaky_server
                     "http://localhost:5000/admin/broadcast" "post" 3 120
                     JNull Examples.broadcast_body []))
         (SendAlert.Sleep 0)
       = SendAlert.Sleep seconds.
Proof.
  apply (send_alert_with_retry_other_method_is_get Examples.flaky_server
           "http://localhost:5000/admin/broadcast" "post" 3 120
           JNull Examples.broadcast_body).
  - intros H. discriminate H.
  - cbn. right. right. left. reflexivity.
Defined.

(* ====================================================================== *)
(** * Further properties: the alert script *)
(* ====================================================================== *)

(** The two sending functions of the script, started after any trace. *)
Lemma alert_script_runs
  (server : SendAlert.Server) (settings : Settings) (t : SendAlert.trace) :
  (exists k,
     (k < 3)%nat
     /\ AlertScript.send_broadcast_alert server settings t
        = (Ok tt,
           (t ++ Spec.backoff_from
                   (SendAlert.Post AlertScript.url (AlertScript.headers settings)
                      (AlertScript.broadcast_payload settings) 120) 0 k)%list))
  /\ (exists k,
        (k < 3)%nat
        /\ AlertScript.send_health_tip server settings t
           = (Ok tt,
              (t ++ Spec.backoff_from
                      (SendAlert.Post AlertScript.url (AlertScript.headers settings)
                         (AlertScript.health_tip_payload settings) 120) 0 k)%list)).
Proof.
  split.
  - destruct (retry_general server AlertScript.url "POST"
                SendAlert.default_max_retries 120 (AlertScript.headers settings)
                (AlertScript.broadcast_payload settings) t ltac:(cbv; discriminate))
      as (k & Hk & _ & Hend).
    exists k. split; [exact Hk|].
    unfold AlertScript.send_broadcast_alert. cbv [try_exceptM bind lift ret].
    destruct Hend as [(r & _ & ->)|(e & _ & _ & ->)]; [|reflexivity].
    cbn [AlertScript.status_code_of].
    destruct (status_code r =? 200); [|reflexivity].
    destruct (response_json r); reflexivity.
  - destruct (retry_general server AlertScript.url "POST"
                SendAlert.default_max_retries 120 (AlertScript.headers settings)
                (AlertScript.health_tip_payload settings) t ltac:(cbv; discriminate))
      as (k & Hk & _ & Hend).
    exists k. split; [exact Hk|].
    unfold AlertScript.send_health_tip. cbv [try_exceptM bind lift ret].
    destruct Hend as [(r & _ & ->)|(e & _ & _ & ->)]; [|reflexivity].
    cbn [AlertScript.status_code_of].
    destruct (status_code r =? 200); reflexivity.
Qed.

(** X19. Whatever the server does, [send_broadcast_alert] and
    [send_health_tip] of the script return without raising, after one to
    three POST requests to the broadcast URL, each with the admin key in
    the header [X-API-Key], the payload of the function and a timeout of
    120 seconds, and with sleeps of 1 and 2 seconds between them. *)
Theorem alert_script_requests
  (server : SendAlert.Server) (settings : Settings) (t : SendAlert.trace) :
  (exists k,
     (k < 3)%nat
     /\ AlertScript.send_broadcast_alert server settings t
        = (Ok tt,
           (t ++ Spec.backoff_from
                   (SendAlert.Post AlertScript.url (AlertScript.headers settings)
                      (AlertScript.broadcast_payload settings) 120) 0 k)%list))
  /\ (exists k,
        (k < 3)%nat
        /\ AlertScript.send_health_tip server settings t
           = (Ok tt,
              (t ++ Spec.backoff_from
                      (SendAlert.Post AlertScript.url (AlertScript.headers settings)
                         (AlertScript.health_tip_payload settings) 120) 0 k)%list)).
Proof. apply alert_script_runs. Qed.

(** X20. [main] of the script returns without raising; it sends the
    emergency broadcast, sleeps 2 seconds and sends the health tip, so it
    makes between two and six requests, the health tip always after the
    broadcast. *)
Theorem alert_script_main
  (server : SendAlert.Server) (settings : Settings) :
  exists k1 k2,
    (k1 < 3)%nat /\ (k2 < 3)%nat
    /\ AlertScript.main server settings []
       = (Ok tt,
          (Spec.backoff_from
             (SendAlert.Post AlertScript.url (AlertScript.headers settings)
                (AlertScript.broadcast_payload settings) 120) 0 k1
           ++ [SendAlert.Sleep 2]
           ++ Spec.backoff_from
                (SendAlert.Post AlertScript.url (AlertScript.headers settings)
                   (AlertScript.health_tip_payload settings) 120) 0 k2)%list)
    /\ SendAlert.requests_made (snd (AlertScript.main server settings []))
       = (S k1 + S k2)%nat.
Proof.
  destruct (proj1 (alert_script_runs server settings [])) as (k1 & Hk1 & H1).
  destruct (proj2 (alert_script_runs server settings
                     ([] ++ Spec.backoff_from
                              (SendAlert.Post AlertScript.url
                                 (AlertScript.headers settings)
                                 (AlertScript.broadcast_payload settings) 120)
                              0 k1 ++ [SendAlert.Sleep 2])%list))
    as (k2 & Hk2 & H2).
  exists k1, k2. split; [exact Hk1|]. split; [exact Hk2|].
  assert (Hmain :
    AlertScript.main server settings []
    = (Ok tt,
       (Spec.backoff_from
          (SendAlert.Post AlertScript.url (AlertScript.headers settings)
             (AlertScript.broadcast_payload settings) 120) 0 k1
        ++ [SendAlert.Sleep 2]
        ++ Spec.backoff_from
             (SendAlert.Post AlertScript.url (AlertScript.headers settings)
                (AlertScript.health_tip_payload settings) 120) 0 k2)%list)).
  { unfold AlertScript.main. cbv [try_exceptM bind].
    rewrite H1. unfold SendAlert.sleep at 1. cbv iota beta.
    rewrite app_nil_l in H2. rewrite app_nil_l. rewrite H2.
    rewrite <- app_assoc. reflexivity. }
  split; [exact Hmain|].
  rewrite Hmain. cbn [snd].
  rewrite !requests_made_app.
  pose proof (requests_made_backoff AlertScript.url "POST" 120
                (AlertScript.headers settings)
                (AlertScript.broadcast_payload settings) 0 k1) as Hb1.
  pose proof (requests_made_backoff AlertScript.url "POST" 120
                (AlertScript.headers settings)
                (AlertScript.health_tip_payload settings) 0 k2) as Hb2.
  change (Spec.request_of AlertScript.url "POST" 120 (AlertScript.headers settings)
            (AlertScript.broadcast_payload settings))
    with (SendAlert.Post AlertScript.url (AlertScript.headers settings)
            (AlertScript.broadcast_payload settings) 120) in Hb1.
  change (Spec.request_of AlertScript.url "POST" 120 (AlertScript.headers settings)
            (AlertScript.health_tip_payload settings))
    with (SendAlert.Post AlertScript.url (AlertScript.headers settings)
            (AlertScript.health_tip_payload settings) 120) in Hb2.
  rewrite Hb1, Hb2. reflexivity.
Qed.

Lemma broadcast_message_nonempty (settings : Settings) :
  is_empty_string (AlertScript.broadcast_message settings) = false.
Proof. reflexivity. Qed.

(** X21. The broadcast request of the script, as the broadcast route
    treats it under the same settings, whenever the script can send it,
    that is, when the admin key is ASCII: with a non-empty key it passes
    the key check and the message check, and the alert service is called
    once with the script's message, "emergency" and "high"; with no admin
    key configured the route answers 401 and nothing is dispatched. *)
Theorem alert_script_meets_route
  (settings : Settings) (service : Main.AlertService) (w : world)
  (key : string) :
  Views.api_key_header (AlertScript.headers settings) = Some key ->
  let body := Ok (AlertScript.broadcast_payload settings) in
  let call :=
    {| bc_message := JStr (AlertScript.broadcast_message settings);
       bc_alert_type := JStr "emergency";
       bc_priority := JStr "high" |} in
  let out := Main.admin_broadcast settings (Some service) (Some key) body w in
  key = admin_api_key settings
  /\ is_ascii_string key = true
  /\ (key <> EmptyString ->
      forall r,
        service call = Ok r ->
        out = (Ok (ReturnDict
                     (JObj [("status", JStr "success");
                            ("message", JStr "Broadcast alert sent successfully");
                            ("result", r)])),
               {| client := client w; posts := posts w;
                  broadcasts := broadcasts w ++ [call] |}))
  /\ (key = EmptyString ->
      out = (Raise (HTTPException 401 "Invalid or missing API key"), w)).
Proof.
  intros Hkey body call out. subst body call out.
  unfold Views.api_key_header, AlertScript.headers in Hkey.
  change (lookup "X-API-Key"
            [("X-API-Key", JStr (admin_api_key settings));
             ("Content-Type", JStr "application/json")])
    with (Some (JStr (admin_api_key settings))) in Hkey.
  cbv iota beta in Hkey.
  destruct (is_ascii_string (admin_api_key settings)) eqn:Ha; [|discriminate Hkey].
  injection Hkey as <-.
  split; [reflexivity|]. split; [exact Ha|].
  unfold Main.admin_broadcast, Main.admin_auth_required.
  cbv [bind lift rbind].
  split.
  - intros Hne r Hr.
    assert (Hne' : is_empty_string (admin_api_key settings) = false).
    { destruct (admin_api_key settings); [contradiction Hne; reflexivity | reflexivity]. }
    rewrite (verify_admin_api_key_ascii settings _ Hne' Hne' Ha Ha), String.eqb_refl.
    cbn [negb]. unfold Main.send_broadcast_alert, Main.call_send_broadcast.
    cbv [try_exceptM bind lift ret raise].
    change (py_get (AlertScript.broadcast_payload settings) "message" JNull)
      with (Ok (JStr (AlertScript.broadcast_message settings))).
    change (py_get (AlertScript.broadcast_payload settings) "alert_type" (JStr "info"))
      with (Ok (JStr "emergency")).
    change (py_get (AlertScript.broadcast_payload settings) "priority" (JStr "normal"))
      with (Ok (JStr "high")).
    cbv iota beta. cbn [truthy]. rewrite broadcast_message_nonempty. cbn [negb].
    rewrite Hr. reflexivity.
  - intros He.
    rewrite (verify_admin_api_key_empty settings (Some (admin_api_key settings)))
      by (right; rewrite He; reflexivity).
    reflexivity.
Qed.

(** The script and the route with the same settings. *)
Lemma alert_script_meets_route_witness :
  Main.admin_broadcast Examples.settings (Some Examples.alert_service)
    (Some "0123456789abcdef0123456789abcdef")
    (Ok (AlertScript.broadcast_payload Examples.settings)) initial_world
  = (Ok (ReturnDict
           (JObj [("status", JStr "success");
                  ("message", JStr "Broadcast alert sent successfully");
                  ("result", JObj [("sent", JInt 1)])])),
     {| client := false; posts := [];
        broadcasts :=
          [{| bc_message := JStr (AlertScript.broadcast_message Examples.settings);
              bc_alert_type := JStr "emergency";
              bc_priority := JStr "high" |}] |}).
Proof.
  apply (proj1 (proj2 (proj2 (alert_script_meets_route Examples.settings
                                Examples.alert_service initial_world
                                "0123456789abcdef0123456789abcdef" eq_refl)))).
  - discriminate.
  - reflexivity.
Defined.

(** The configured token, sent back by Twilio. *)
Lemma twilio_verify_webhook_iff_witness :
  TwilioSMS.verify_webhook Examples.settings
    (JObj [("verify_token", JStr "tw-secret")])
  = Ok true.
Proof.
  apply (proj2 (proj2 (twilio_verify_webhook_iff Examples.settings
                         (JObj [("verify_token", JStr "tw-secret")])))).
  exists [("verify_token", JStr "tw-secret")].
  split; [reflexivity|]. split; [reflexivity|].
  split; [discriminate | reflexivity].
Defined.
